(** * preprocessy.feature_selection._selectKBest

    A shallow embedding of the [SelectKBest] class and a verification of
    its contract: the scoring-to-mask-to-selection pipeline of [fit],
    [__get_mask], [transform] and [fit_transform].

    Modelling choices.
    - A float score or cell is a rational [Q]; NaN and the infinities are
      outside the model.  Two scores are the same float when they are [==].
    - A selector is a record of its four attributes; a method is a
      computation in a state-and-exception monad over the selector and a
      log of the calls made to the scoring function.
    - Python's dynamic typing shows where the code tests it
      ([isinstance], [callable], attribute access): arguments are values
      of a small universe [pyobj].
    - [numpy], [pandas] and [sklearn] are collaborators.  The few numpy
      and pandas operations the class uses are written out in the modules
      [np] and [pd]; the two sklearn scorers are parameters of the
      development. *)

From Stdlib Require Import ZArith QArith.
From stdpp Require Import base tactics option list sorting strings pretty.

Local Open Scope string_scope.
Local Open Scope Z_scope.

(** ** Exceptions and outcomes *)

(** The exception classes the class raises or runs into; what a scoring
    function raises is taken among them. *)
Inductive exn : Type :=
| TypeError (msg : string)
| ValueError (msg : string)
| AttributeError (msg : string)
| IndexError (msg : string).

Inductive outcome (A : Type) : Type :=
| Ok (a : A)
| Raise (e : exn).
Arguments Ok {A} a.
Arguments Raise {A} e.

Definition is_TypeError (e : exn) : bool :=
  match e with TypeError _ => true | _ => false end.

(** [contains needle s]: [needle in s] on Python strings. *)
Fixpoint contains (needle s : string) : bool :=
  String.prefix needle s ||
  match s with
  | EmptyString => false
  | String _ rest => contains needle rest
  end.

(** ** numpy: one-dimensional arrays *)

Module np.

(** A one-dimensional float array and a one-dimensional bool array. *)
Abbreviation ndarray := (list Q) (only parsing).
Abbreviation boolarray := (list bool) (only parsing).

(** [np.zeros(shape, dtype=bool)] for a one-dimensional shape. *)
Definition zeros (n : nat) : boolarray := replicate n false.

(** [a.any()]. *)
Definition any (a : boolarray) : bool := existsb id a.

(** The score at position [i]; positions are always in range where the
    code reads them. *)
Definition item (a : ndarray) (i : nat) : Q := nth i a 0%Q.

(** One step of a stable insertion: [i] goes in front of the first
    position whose score is not smaller. *)
Fixpoint insert_by (a : ndarray) (i : nat) (sorted : list nat) : list nat :=
  match sorted with
  | [] => [i]
  | j :: rest =>
      if Qle_bool (item a i) (item a j) then i :: sorted
      else j :: insert_by a i rest
  end.

(** [np.argsort(a, kind="stable")]: the positions of [a] by ascending
    score, equal scores kept in their original order.  The positions are
    inserted from the last to the first, so each one lands in front of
    the later positions of equal score. *)
Definition argsort (a : ndarray) : list nat :=
  foldr (insert_by a) [] (seq 0 (length a)).

(** [l[start:]] with Python's rule for a negative or too large start. *)
Definition slice_from {A} (start : Z) (l : list A) : list A :=
  let n := Z.of_nat (length l) in
  let first := if start <? 0 then Z.max (start + n) 0 else Z.min start n in
  drop (Z.to_nat first) l.

(** [mask[idx] = 1] for an array [idx] of positions. *)
Definition put_true (idx : list nat) (mask : boolarray) : boolarray :=
  foldr (λ i m, <[i := true]> m) mask idx.

End np.

(** ** pandas: tables and vectors *)

Module pd.

(** A named column of cells. *)
Record Column : Type := mkColumn {
  name : string;
  cells : list Q
}.

(** A [DataFrame]: [n_samples] rows (its index) and the columns in
    order.  A table without columns can still have rows. *)
Record DataFrame : Type := mkDataFrame {
  n_samples : nat;
  columns : list Column
}.

(** A [Series]: the target values in row order. *)
Abbreviation Series := (list Q) (only parsing).

(** [X.shape[1]]. *)
Definition n_features (X : DataFrame) : nat := length (columns X).

(** Every column has one cell per row. *)
Definition well_formed (X : DataFrame) : Prop :=
  Forall (λ c, length (cells c) = n_samples X) (columns X).

(** [y.nunique()]: the number of distinct values. *)
Fixpoint nunique (y : Series) : nat :=
  match y with
  | [] => 0
  | v :: rest =>
      if existsb (Qeq_bool v) rest then nunique rest else S (nunique rest)
  end.

(** The entries of [l] at the true positions of [mask]. *)
Fixpoint select {A} (mask : np.boolarray) (l : list A) : list A :=
  match mask, l with
  | b :: mask', x :: l' =>
      if b then x :: select mask' l' else select mask' l'
  | _, _ => []
  end.

(** [X.iloc[:, mask]] for a bool array [mask]: pandas refuses a mask of
    the wrong length, and keeps every row. *)
Definition iloc_columns (X : DataFrame) (mask : np.boolarray)
  : outcome DataFrame :=
  if decide (length mask = n_features X) then
    Ok (mkDataFrame (n_samples X) (select mask (columns X)))
  else
    Raise (IndexError ("Boolean index has wrong length: "
      +:+ pretty (length mask) +:+ " instead of "
      +:+ pretty (n_features X))).

End pd.

(** ** The selector *)

Module SelectKBest.

(** What a scoring function returns: one array of scores, or a tuple or
    list of arrays (the pair [(scores, pvalues)] when it has two). *)
Inductive score_func_ret : Type :=
| RetArray (scores : np.ndarray)
| RetSeq (items : list np.ndarray).

(** The callables: the two scorers the module imports from sklearn and
    any function the caller passes. *)
Inductive callable : Type :=
| f_classif
| f_regression
| user_func (f : pd.DataFrame → pd.Series → outcome score_func_ret).

(** The values of the attribute [score_func]: [None], a callable, or a
    value that is not callable (a string or an integer). *)
Inductive score_func_value : Type :=
| SFNone
| SFCallable (f : callable)
| SFStr (s : string)
| SFInt (n : Z).

(** [callable(v)]. *)
Definition is_callable (v : score_func_value) : bool :=
  match v with SFCallable _ => true | _ => false end.

(** [str(v)] and [str(type(v))] as an f-string prints them.  A callable
    never reaches the message that prints them. *)
Definition str (v : score_func_value) : string :=
  match v with
  | SFNone => "None"
  | SFCallable _ => "<function>"
  | SFStr s => s
  | SFInt n => pretty n
  end.

Definition type_str (v : score_func_value) : string :=
  match v with
  | SFNone => "<class 'NoneType'>"
  | SFCallable _ => "<class 'function'>"
  | SFStr _ => "<class 'str'>"
  | SFInt _ => "<class 'int'>"
  end.

(** The selector's attributes. *)
Record t : Type := mk {
  k : Z;
  score_func : score_func_value;
  scores : option np.ndarray;
  pvalues : option np.ndarray
}.

(** [__init__(self, score_func=None, k=10)]. *)
Definition __init__ (score_func : score_func_value) (k : Z) : t :=
  mk k score_func None None.

Definition default : t := __init__ SFNone 10.

(** The arguments a caller can pass for [X] and [y]. *)
Inductive pyobj : Type :=
| PyNone
| PyInt (n : Z)
| PyStr (s : string)
| PyList (rows : list (list Q))
| PyDataFrame (X : pd.DataFrame)
| PySeries (y : pd.Series).

(** [type(v).__name__]. *)
Definition type_name (v : pyobj) : string :=
  match v with
  | PyNone => "NoneType"
  | PyInt _ => "int"
  | PyStr _ => "str"
  | PyList _ => "list"
  | PyDataFrame _ => "DataFrame"
  | PySeries _ => "Series"
  end.

(** [isinstance(v, pd.core.frame.DataFrame)] and
    [isinstance(v, pd.core.series.Series)]. *)
Definition is_DataFrame (v : pyobj) : bool :=
  match v with PyDataFrame _ => true | _ => false end.

Definition is_Series (v : pyobj) : bool :=
  match v with PySeries _ => true | _ => false end.

(** *** The monad of a method call *)

(** One call of a scoring function. *)
Definition invocation : Type := callable * pd.DataFrame * pd.Series.

(** The selector and the calls made to scoring functions so far. *)
Record world : Type := mkWorld {
  self : t;
  calls : list invocation
}.

Definition M (A : Type) : Type := world → outcome A * world.

#[global] Instance M_ret : MRet M := λ A a w, (Ok a, w).

#[global] Instance M_bind : MBind M := λ A B f m w,
  match m w with
  | (Ok a, w') => f a w'
  | (Raise e, w') => (Raise e, w')
  end.

Definition raise {A} (e : exn) : M A := λ w, (Raise e, w).

Definition lift {A} (o : outcome A) : M A := λ w, (o, w).

Definition get_self : M t := λ w, (Ok (self w), w).

Definition set_self (s : t) : M unit := λ w, (Ok (), mkWorld s (calls w)).

(** [self.score_func = v], [self.scores = v], [self.pvalues = v]. *)
Definition set_score_func (v : score_func_value) : M unit :=
  s ← get_self; set_self (mk (k s) v (scores s) (pvalues s)).

Definition set_scores (v : option np.ndarray) : M unit :=
  s ← get_self; set_self (mk (k s) (score_func s) v (pvalues s)).

Definition set_pvalues (v : option np.ndarray) : M unit :=
  s ← get_self; set_self (mk (k s) (score_func s) (scores s) v).

(** The messages of the errors the class raises itself. *)
Definition msg_not_dataframe : string :=
  "Feature dataframe is not a valid dataframe." +:+ String (Ascii.ascii_of_nat 10) ""
  +:+ "Expected object type: pandas.core.frame.DataFrame".

Definition msg_not_series : string :=
  "Target column is not a valid series." +:+ String (Ascii.ascii_of_nat 10) ""
  +:+ "Expected object type: pandas.core.series.Series".

Definition msg_not_callable (v : score_func_value) : string :=
  "The score function should be a callable, " +:+ str v
  +:+ " of type (" +:+ type_str v +:+ ") was passed.".

Definition msg_not_fitted : string :=
  "self.scores is None. Please fit the estimator before calling transform.".

Definition msg_no_features : string :=
  "No features were selected: either the data is too noisy or the selection test too strict.".

Definition msg_shape : string :=
  "X has a different shape than during fitting.".

(** The messages of the errors Python raises on the class's behalf. *)
Definition msg_no_attribute (type attr : string) : string :=
  "'" +:+ type +:+ "' object has no attribute '" +:+ attr +:+ "'".

Definition msg_unpack (got : nat) : string :=
  if decide (got < 2)%nat then
    "not enough values to unpack (expected 2, got " +:+ pretty got +:+ ")"
  else "too many values to unpack (expected 2)".

(** [self.__get_mask()]. *)
Definition __get_mask : M np.boolarray :=
  s ← get_self;
  if decide (k s = 0) then
    match scores s with
    | Some a => mret (np.zeros (length a))
    | None => raise (AttributeError (msg_no_attribute "NoneType" "shape"))
    end
  else
    match scores s with
    | None => raise (ValueError msg_not_fitted)
    | Some a =>
        let mask := np.zeros (length a) in
        mret (np.put_true (np.slice_from (- k s) (np.argsort a)) mask)
    end.

(** [self.transform(X)]. *)
Definition transform (X : pyobj) : M pd.DataFrame :=
  mask ← __get_mask;
  if negb (np.any mask) then raise (ValueError msg_no_features)
  else
    match X with
    | PyDataFrame df =>
        if decide (length mask ≠ pd.n_features df) then
          raise (ValueError msg_shape)
        else lift (pd.iloc_columns df mask)
    | PySeries _ => raise (IndexError "tuple index out of range")
    | _ => raise (AttributeError (msg_no_attribute (type_name X) "shape"))
    end.

Section Scorers.

(** sklearn's [f_classif] and [f_regression]: each returns the pair of
    the F-statistics and the p-values, or raises. *)
Variable sklearn_f_classif sklearn_f_regression :
  pd.DataFrame → pd.Series → outcome (np.ndarray * np.ndarray).

Definition pair_ret (o : outcome (np.ndarray * np.ndarray))
  : outcome score_func_ret :=
  match o with
  | Ok (F, p) => Ok (RetSeq [F; p])
  | Raise e => Raise e
  end.

(** What calling [f(X, y)] evaluates to. *)
Definition apply (f : callable) (X : pd.DataFrame) (y : pd.Series)
  : outcome score_func_ret :=
  match f with
  | f_classif => pair_ret (sklearn_f_classif X y)
  | f_regression => pair_ret (sklearn_f_regression X y)
  | user_func g => g X y
  end.

(** The call [f(X, y)] itself: it is logged, then evaluated. *)
Definition call (f : callable) (X : pd.DataFrame) (y : pd.Series)
  : M score_func_ret :=
  λ w, (apply f X y, mkWorld (self w) (calls w ++ [(f, X, y)])).

(** Lines 118-125 of [fit]: unpack what the scoring function returned
    and store it. *)
Definition store (ret : score_func_ret) : M unit :=
  match ret with
  | RetSeq [s; p] =>
      set_scores (Some s);; set_pvalues (Some p)
  | RetSeq items => raise (ValueError (msg_unpack (length items)))
  | RetArray s =>
      set_scores (Some s);; set_pvalues None
  end.

(** [self.fit(X, y)]; the selector it returns is the state. *)
Definition fit (X y : pyobj) : M unit :=
  match X with
  | PyDataFrame df =>
      match y with
      | PySeries ys =>
          s ← get_self;
          (match score_func s with
           | SFNone =>
               if decide (pd.nunique ys ≤ 15)%nat
               then set_score_func (SFCallable f_classif)
               else set_score_func (SFCallable f_regression)
           | _ => mret ()
           end);;
          s ← get_self;
          match score_func s with
          | SFCallable f => ret ← call f df ys; store ret
          | v => raise (TypeError (msg_not_callable v))
          end
      | _ => raise (TypeError msg_not_series)
      end
  | _ => raise (TypeError msg_not_dataframe)
  end.

(** [self.fit_transform(X, y)], that is [self.fit(X, y).transform(X)]. *)
Definition fit_transform (X y : pyobj) : M pd.DataFrame :=
  fit X y;; transform X.

End Scorers.

End SelectKBest.

Local Close Scope string_scope.

(** ** Vocabulary of the statements *)

(** [before a i j]: position [i] comes before position [j] in the stable
    ascending order of the scores [a]: its score is smaller, or the
    scores are equal and [i] is the earlier column. *)
Definition before (a : np.ndarray) (i j : nat) : Prop :=
  (np.item a i < np.item a j)%Q ∨ (np.item a i == np.item a j ∧ (i < j)%nat).

(** [order] is the stable ascending sort of the positions of [a]. *)
Definition stable_ascending (a : np.ndarray) (order : list nat) : Prop :=
  order ≡ₚ seq 0 (length a) ∧ StronglySorted (before a) order.

(** The number of true entries of a mask. *)
Fixpoint count_true (mask : np.boolarray) : nat :=
  match mask with
  | [] => 0
  | b :: rest => (if b then 1 else 0) + count_true rest
  end.

(** The positions a mask selects. *)
Definition selected (mask : np.boolarray) (i : nat) : Prop :=
  mask !! i = Some true.

(** The mask lines 72-75 of [__get_mask] build from [k] and the scores. *)
Definition kbest_mask (k : Z) (a : np.ndarray) : np.boolarray :=
  np.put_true (np.slice_from (- k) (np.argsort a)) (np.zeros (length a)).

(** The scorer [fit] resolves to when [score_func] is unset. *)
Definition auto_scorer (y : pd.Series) : SelectKBest.callable :=
  if decide (pd.nunique y ≤ 15)%nat then SelectKBest.f_classif
  else SelectKBest.f_regression.

(** [score_func] after the auto-resolution of [fit]. *)
Definition resolved (v : SelectKBest.score_func_value) (y : pd.Series)
  : SelectKBest.score_func_value :=
  match v with
  | SelectKBest.SFNone => SelectKBest.SFCallable (auto_scorer y)
  | _ => v
  end.

(** The scores and the p-values a scoring function's result carries:
    the scores of a single array or of a pair, the p-values of a pair. *)
Definition ret_scores (ret : SelectKBest.score_func_ret) : option np.ndarray :=
  match ret with
  | SelectKBest.RetArray s => Some s
  | SelectKBest.RetSeq [s; _] => Some s
  | SelectKBest.RetSeq _ => None
  end.

Definition ret_pvalues (ret : SelectKBest.score_func_ret) : option np.ndarray :=
  match ret with
  | SelectKBest.RetSeq [_; p] => Some p
  | _ => None
  end.

(** [fit(X, y)] then [transform(X)], spelled out on the outcomes: the
    failure of [fit] is the failure of the whole, otherwise the outcome
    of [transform] on the fitted selector is. *)
Definition fit_then_transform
    (sklearn_f_classif sklearn_f_regression :
       pd.DataFrame → pd.Series → outcome (np.ndarray * np.ndarray))
    (X y : SelectKBest.pyobj) (w : SelectKBest.world)
  : outcome pd.DataFrame * SelectKBest.world :=
  match SelectKBest.fit sklearn_f_classif sklearn_f_regression X y w with
  | (Raise e, w1) => (Raise e, w1)
  | (Ok _, w1) => SelectKBest.transform X w1
  end.

(** ** Sample data *)

(** A table of four features and three samples, and a target. *)
Definition X_abcd : pd.DataFrame :=
  pd.mkDataFrame 3
    [pd.mkColumn "a" [1; 2; 3]%Q; pd.mkColumn "b" [4; 5; 6]%Q;
     pd.mkColumn "c" [7; 8; 9]%Q; pd.mkColumn "d" [0; 0; 1]%Q].

Definition y_abc : pd.Series := [0; 1; 1]%Q.

(** Another table of four features, with other names and other cells. *)
Definition X_pqrs : pd.DataFrame :=
  pd.mkDataFrame 2
    [pd.mkColumn "p" [10; 20]%Q; pd.mkColumn "q" [30; 40]%Q;
     pd.mkColumn "r" [50; 60]%Q; pd.mkColumn "s" [70; 80]%Q].

(** A table of three samples and no feature. *)
Definition X_empty : pd.DataFrame := pd.mkDataFrame 3 [].

(** A scorer that returns the scores 5, 3, 5, 1 whatever the table, and
    one that scores each column by its first cell. *)
Definition scores_5351 : SelectKBest.callable :=
  SelectKBest.user_func (λ _ _, Ok (SelectKBest.RetArray [5; 3; 5; 1]%Q)).

Definition first_cell_scores : SelectKBest.callable :=
  SelectKBest.user_func (λ X _,
    Ok (SelectKBest.RetArray (map (λ c, hd 0%Q (pd.cells c)) (pd.columns X)))).

(** A stand-in for the two sklearn scorers: the first cell of each
    column as its statistic, and 0 as every p-value. *)
Definition first_cell_test (X : pd.DataFrame) (y : pd.Series)
  : outcome (np.ndarray * np.ndarray) :=
  Ok (map (λ c, hd 0%Q (pd.cells c)) (pd.columns X),
      map (λ _, 0%Q) (pd.columns X)).

(** A world: a selector and no call made yet. *)
Definition fresh (s : SelectKBest.t) : SelectKBest.world :=
  SelectKBest.mkWorld s [].

(** The worlds the sample calls of [fit] end in: [scores_5351] with
    [k = 2] on [(X_abcd, y_abc)]; [first_cell_scores] with [k = 2] on
    [(X_abcd, y_abc)], and then on [(X_pqrs, y_abc)]; the default
    selector on [(X_abcd, y_abc)]; [first_cell_scores] with [k = 1] on
    [(X_empty, y_abc)]. *)
Definition fitted_5351 : SelectKBest.world :=
  SelectKBest.mkWorld
    (SelectKBest.mk 2 (SelectKBest.SFCallable scores_5351)
       (Some [5; 3; 5; 1]%Q) None)
    [(scores_5351, X_abcd, y_abc)].

Definition fitted_abcd : SelectKBest.world :=
  SelectKBest.mkWorld
    (SelectKBest.mk 2 (SelectKBest.SFCallable first_cell_scores)
       (Some [1; 4; 7; 0]%Q) None)
    [(first_cell_scores, X_abcd, y_abc)].

Definition refitted_pqrs : SelectKBest.world :=
  SelectKBest.mkWorld
    (SelectKBest.mk 2 (SelectKBest.SFCallable first_cell_scores)
       (Some [10; 30; 50; 70]%Q) None)
    [(first_cell_scores, X_abcd, y_abc); (first_cell_scores, X_pqrs, y_abc)].

Definition fitted_default : SelectKBest.world :=
  SelectKBest.mkWorld
    (SelectKBest.mk 10 (SelectKBest.SFCallable SelectKBest.f_classif)
       (Some [1; 4; 7; 0]%Q) (Some [0; 0; 0; 0]%Q))
    [(SelectKBest.f_classif, X_abcd, y_abc)].

Definition fitted_empty : SelectKBest.world :=
  SelectKBest.mkWorld
    (SelectKBest.mk 1 (SelectKBest.SFCallable first_cell_scores)
       (Some []) None)
    [(first_cell_scores, X_empty, y_abc)].

(** A scorer that raises, and one that returns three arrays. *)
Definition raising_scores : SelectKBest.callable :=
  SelectKBest.user_func (λ _ _, Raise (ValueError "Input contains NaN.")).

Definition three_arrays : SelectKBest.callable :=
  SelectKBest.user_func (λ _ _,
    Ok (SelectKBest.RetSeq [[1]%Q; [2]%Q; [3]%Q])).

(** ** Facts about the numpy operations *)

Section np_facts.

Local Open Scope nat_scope.

Implicit Types (a : np.ndarray) (mask : np.boolarray) (idx : list nat).

Lemma Qle_bool_false (x y : Q) : Qle_bool x y = false → (y < x)%Q.
Proof.
  intros H. apply Qnot_le_lt. intros Hle.
  apply Qle_bool_iff in Hle. congruence.
Qed.

Lemma insert_by_perm a i l : np.insert_by a i l ≡ₚ i :: l.
Proof.
  induction l as [|j l IH]; simpl; [done|].
  destruct (Qle_bool _ _); [done|].
  rewrite IH. apply Permutation_swap.
Qed.

Lemma insert_by_sorted a i l :
  StronglySorted (before a) l →
  Forall (λ j, i < j) l →
  StronglySorted (before a) (np.insert_by a i l).
Proof.
  induction 1 as [|j l Hl IH Hj]; intros Hlt; simpl.
  - repeat constructor.
  - apply Forall_cons in Hlt as [Hij Hlt].
    destruct (Qle_bool (np.item a i) (np.item a j)) eqn:E.
    + apply Qle_bool_iff in E.
      constructor; [by constructor|].
      assert (Hbij : before a i j).
      { unfold before. destruct (Qlt_le_dec (np.item a i) (np.item a j)).
        - by left.
        - right. split; [by apply Qle_antisym|done]. }
      constructor; [done|].
      rewrite Forall_forall in Hj, Hlt |- *.
      intros x Hx. specialize (Hj x Hx). specialize (Hlt x Hx).
      unfold before in *.
      destruct Hj as [Hj|[Hj _]].
      * left. eapply Qle_lt_trans; eauto.
      * destruct (Qlt_le_dec (np.item a i) (np.item a x)); [by left|].
        right. split; [|done]. apply Qle_antisym; [|done].
        rewrite <- Hj. done.
    + apply Qle_bool_false in E.
      constructor; [by apply IH|].
      rewrite insert_by_perm. constructor; [by left|done].
Qed.

Lemma argsort_from_perm a s n :
  foldr (np.insert_by a) [] (seq s n) ≡ₚ seq s n.
Proof.
  revert s. induction n as [|n IH]; intros s; simpl; [done|].
  by rewrite insert_by_perm, IH.
Qed.

Lemma argsort_from_sorted a s n :
  StronglySorted (before a) (foldr (np.insert_by a) [] (seq s n)).
Proof.
  revert s. induction n as [|n IH]; intros s; simpl; [constructor|].
  apply insert_by_sorted; [apply IH|].
  rewrite argsort_from_perm. apply Forall_forall. intros j Hj.
  apply elem_of_seq in Hj. lia.
Qed.

(** [np.argsort] returns the stable ascending sort. *)
Lemma argsort_stable_ascending a : stable_ascending a (np.argsort a).
Proof.
  split; [apply argsort_from_perm|apply argsort_from_sorted].
Qed.

Lemma before_asym a i j : before a i j → before a j i → False.
Proof.
  unfold before. intros [H1|[H1 H1']] [H2|[H2 H2']].
  - apply (Qlt_irrefl (np.item a i)). by apply Qlt_trans with (np.item a j).
  - rewrite H2 in H1. by apply Qlt_irrefl in H1.
  - rewrite H1 in H2. by apply Qlt_irrefl in H2.
  - lia.
Qed.

(** There is one stable ascending sort, so [np.argsort] is it. *)
Lemma stable_ascending_unique a order :
  stable_ascending a order → order = np.argsort a.
Proof.
  intros [Hp Hs]. destruct (argsort_stable_ascending a) as [Hp' Hs'].
  apply (StronglySorted_unique_strong (before a)); [|done|done|].
  - intros x1 x2 _ _ H1 H2. destruct (before_asym a x1 x2 H1 H2).
  - by rewrite Hp, Hp'.
Qed.

Lemma argsort_length a : length (np.argsort a) = length a.
Proof.
  destruct (argsort_stable_ascending a) as [Hp _].
  by rewrite Hp, length_seq.
Qed.

Lemma argsort_NoDup a : NoDup (np.argsort a).
Proof.
  destruct (argsort_stable_ascending a) as [Hp _].
  rewrite Hp. apply NoDup_seq.
Qed.

Lemma argsort_elem_of a i : i ∈ np.argsort a ↔ i < length a.
Proof.
  destruct (argsort_stable_ascending a) as [Hp _].
  rewrite Hp, elem_of_seq. lia.
Qed.

End np_facts.

Section mask_facts.

Local Open Scope nat_scope.

Implicit Types (mask : np.boolarray) (idx : list nat).

Lemma zeros_length n : length (np.zeros n) = n.
Proof. apply length_replicate. Qed.

Lemma zeros_not_selected n i : ¬ selected (np.zeros n) i.
Proof.
  unfold selected, np.zeros. intros H.
  apply lookup_replicate in H as [? _]. done.
Qed.

Lemma zeros_any n : np.any (np.zeros n) = false.
Proof. induction n; simpl; auto. Qed.

Lemma zeros_count n : count_true (np.zeros n) = 0.
Proof. induction n; simpl; auto. Qed.

Lemma put_true_cons i idx mask :
  np.put_true (i :: idx) mask = <[i := true]> (np.put_true idx mask).
Proof. reflexivity. Qed.

Lemma put_true_length idx mask :
  length (np.put_true idx mask) = length mask.
Proof.
  induction idx as [|i idx IH]; [done|].
  by rewrite put_true_cons, length_insert.
Qed.

Lemma put_true_selected idx mask i :
  selected (np.put_true idx mask) i ↔
  (i ∈ idx ∧ i < length mask) ∨ selected mask i.
Proof.
  unfold selected. induction idx as [|j idx IH].
  - split; [by right|]. intros [[H _]|H]; [|done]. by apply elem_of_nil in H.
  - rewrite put_true_cons. destruct (decide (j = i)) as [->|Hne].
    + destruct (decide (i < length mask)) as [Hlt|Hge].
      * rewrite list_lookup_insert_eq by (by rewrite put_true_length).
        split; [|done]. intros _. left. split; [left|done].
      * rewrite list_insert_ge by (rewrite put_true_length; lia).
        rewrite IH, elem_of_cons. tauto.
    + rewrite list_lookup_insert_ne by done.
      rewrite IH, elem_of_cons. intuition congruence.
Qed.

Lemma count_true_insert mask i :
  mask !! i = Some false →
  count_true (<[i := true]> mask) = S (count_true mask).
Proof.
  revert i. induction mask as [|b mask IH]; intros [|i] H; simpl in *;
    try done.
  - by inversion H.
  - rewrite IH by done. lia.
Qed.

Lemma put_true_count idx n :
  NoDup idx → Forall (λ i, i < n) idx →
  count_true (np.put_true idx (np.zeros n)) = length idx.
Proof.
  induction 1 as [|i idx Hi Hnd IH]; intros Hlt.
  - apply zeros_count.
  - apply Forall_cons in Hlt as [Hin Hlt].
    rewrite put_true_cons, length_cons.
    rewrite count_true_insert; [by rewrite IH|].
    destruct (np.put_true idx (np.zeros n) !! i) as [[]|] eqn:E; [|done|].
    + apply put_true_selected in E as [[? _]|E]; [done|].
      by apply zeros_not_selected in E.
    + apply lookup_ge_None in E.
      rewrite put_true_length, zeros_length in E. lia.
Qed.

Lemma any_selected mask : np.any mask = true ↔ ∃ i, selected mask i.
Proof.
  unfold np.any, selected. rewrite existsb_exists. split.
  - intros (b & Hb & Hid). simpl in Hid. subst b.
    apply list_elem_of_In, list_elem_of_lookup in Hb. done.
  - intros [i Hi]. exists true. split; [|done].
    apply list_elem_of_In, list_elem_of_lookup. eauto.
Qed.

Lemma any_count mask : np.any mask = true ↔ 0 < count_true mask.
Proof.
  unfold np.any. induction mask as [|[] mask IH]; simpl.
  - split; [done|lia].
  - split; [lia|done].
  - done.
Qed.

Lemma select_sublist {A} mask (l : list A) :
  pd.select mask l `sublist_of` l.
Proof.
  revert l. induction mask as [|b mask IH]; intros [|x l]; simpl;
    try apply sublist_nil_l.
  destruct b; [by apply sublist_skip|by apply sublist_cons].
Qed.

Lemma select_length {A} mask (l : list A) :
  length mask = length l → length (pd.select mask l) = count_true mask.
Proof.
  revert l. induction mask as [|b mask IH]; intros [|x l] H; simpl in *;
    try done.
  destruct b; simpl; rewrite IH by lia; done.
Qed.

Lemma select_all {A} (l : list A) : pd.select (replicate (length l) true) l = l.
Proof. induction l; simpl; [done|]. by f_equal. Qed.

(** Python's [l[-n:]] for a positive [n]: the last [n] entries, all of
    [l] when it has no more than [n]. *)
Lemma slice_from_neg {A} (n : Z) (l : list A) :
  (0 < n)%Z →
  np.slice_from (- n) l = drop (length l - Z.to_nat n) l.
Proof.
  intros Hn. unfold np.slice_from.
  destruct (Z.ltb_spec (- n) 0); [|lia].
  f_equal. lia.
Qed.

Lemma slice_from_sublist {A} (start : Z) (l : list A) :
  np.slice_from start l `sublist_of` l.
Proof. apply sublist_drop. Qed.

Lemma slice_from_neg_length {A} (n : Z) (l : list A) :
  (0 < n ≤ Z.of_nat (length l))%Z →
  length (np.slice_from (- n) l) = Z.to_nat n.
Proof.
  intros Hn. rewrite slice_from_neg by lia. rewrite length_drop. lia.
Qed.

Lemma slice_from_neg_all {A} (n : Z) (l : list A) :
  (0 < n)%Z → (Z.of_nat (length l) ≤ n)%Z →
  np.slice_from (- n) l = l.
Proof.
  intros Hn Hl. rewrite slice_from_neg by lia.
  replace (length l - Z.to_nat n) with 0 by lia. done.
Qed.

End mask_facts.

(** ** Facts about messages *)

Section message_facts.

Lemma prefix_app (s t : string) : String.prefix s (s +:+ t) = true.
Proof.
  induction s as [|c s IH]; simpl; [by destruct ("" +:+ t)|].
  by destruct (Ascii.ascii_dec c c).
Qed.

Lemma contains_prefix (s x : string) :
  String.prefix s x = true → contains s x = true.
Proof. destruct x; simpl; by intros ->. Qed.

Lemma contains_here (s t : string) : contains s (s +:+ t) = true.
Proof. apply contains_prefix, prefix_app. Qed.

Lemma contains_later (s p r : string) :
  contains s r = true → contains s (p +:+ r) = true.
Proof.
  intros H. induction p as [|c p IH]; simpl; [done|].
  rewrite IH. apply orb_true_r.
Qed.

(** The message about [score_func] prints the value and its type. *)
Lemma msg_not_callable_names (v : SelectKBest.score_func_value) :
  contains (SelectKBest.str v) (SelectKBest.msg_not_callable v) = true ∧
  contains (SelectKBest.type_str v) (SelectKBest.msg_not_callable v) = true.
Proof.
  unfold SelectKBest.msg_not_callable. split.
  - apply contains_later, contains_here.
  - do 3 apply contains_later. apply contains_here.
Qed.

End message_facts.

(** ** Facts about the methods *)

Section method_facts.

Import SelectKBest.

Local Open Scope nat_scope.

Lemma kbest_mask_length kk a : length (kbest_mask kk a) = length a.
Proof. unfold kbest_mask. by rewrite put_true_length, zeros_length. Qed.

Lemma kbest_mask_selected kk a i :
  selected (kbest_mask kk a) i ↔ i ∈ np.slice_from (- kk) (np.argsort a).
Proof.
  unfold kbest_mask. rewrite put_true_selected, zeros_length. split.
  - intros [[H _]|H]; [done|]. by apply zeros_not_selected in H.
  - intros H. left. split; [done|].
    apply argsort_elem_of. eapply elem_of_sublist; [exact H|].
    apply slice_from_sublist.
Qed.

Lemma kbest_mask_count kk a :
  count_true (kbest_mask kk a)
  = length (np.slice_from (- kk) (np.argsort a)).
Proof.
  unfold kbest_mask. apply put_true_count.
  - eapply sublist_NoDup; [apply argsort_NoDup|apply slice_from_sublist].
  - apply Forall_forall. intros i Hi. apply argsort_elem_of.
    eapply elem_of_sublist; [exact Hi|]. apply slice_from_sublist.
Qed.

Lemma kbest_mask_all kk a :
  (0 < kk)%Z → (Z.of_nat (length a) ≤ kk)%Z →
  kbest_mask kk a = replicate (length a) true.
Proof.
  intros Hk Hn. apply list_eq_same_length with (length a);
    [by rewrite length_replicate|apply kbest_mask_length|].
  intros i x y Hi Hx Hy.
  apply lookup_replicate in Hy as [-> _].
  assert (selected (kbest_mask kk a) i) as Hsel.
  { apply kbest_mask_selected.
    rewrite slice_from_neg_all by (rewrite ?argsort_length; lia).
    by apply argsort_elem_of. }
  unfold selected in Hsel. congruence.
Qed.

(** What [__get_mask] does in each of its four cases. *)
Lemma get_mask_fitted w a :
  scores (self w) = Some a → k (self w) ≠ 0%Z →
  __get_mask w = (Ok (kbest_mask (k (self w)) a), w).
Proof.
  intros Hs Hk. unfold __get_mask, mbind, M_bind, get_self; simpl.
  destruct (decide (k (self w) = 0%Z)); [done|]. by rewrite Hs.
Qed.

Lemma get_mask_zero w a :
  scores (self w) = Some a → k (self w) = 0%Z →
  __get_mask w = (Ok (np.zeros (length a)), w).
Proof.
  intros Hs Hk. unfold __get_mask, mbind, M_bind, get_self; simpl.
  destruct (decide (k (self w) = 0%Z)); [|done]. by rewrite Hs.
Qed.

Lemma get_mask_unfitted w :
  scores (self w) = None → k (self w) ≠ 0%Z →
  __get_mask w = (Raise (ValueError msg_not_fitted), w).
Proof.
  intros Hs Hk. unfold __get_mask, mbind, M_bind, get_self; simpl.
  destruct (decide (k (self w) = 0%Z)); [done|]. by rewrite Hs.
Qed.

Lemma get_mask_zero_unfitted w :
  scores (self w) = None → k (self w) = 0%Z →
  __get_mask w
  = (Raise (AttributeError (msg_no_attribute "NoneType" "shape")), w).
Proof.
  intros Hs Hk. unfold __get_mask, mbind, M_bind, get_self; simpl.
  destruct (decide (k (self w) = 0%Z)); [|done]. by rewrite Hs.
Qed.

(** [__get_mask] on a fitted selector returns a mask as long as the
    scores and leaves the selector alone. *)
Lemma get_mask_ok w a :
  scores (self w) = Some a →
  ∃ mask, __get_mask w = (Ok mask, w) ∧ length mask = length a.
Proof.
  intros Hs. destruct (decide (k (self w) = 0%Z)) as [Hk|Hk].
  - eexists. split; [by apply get_mask_zero|apply zeros_length].
  - eexists. split; [by apply get_mask_fitted|apply kbest_mask_length].
Qed.

(** The mask depends on [k] and [scores] alone. *)
Lemma get_mask_depends w w' :
  k (self w) = k (self w') → scores (self w) = scores (self w') →
  fst (__get_mask w) = fst (__get_mask w').
Proof.
  intros Hk Hs. unfold __get_mask, mbind, M_bind, get_self; simpl.
  rewrite Hk, Hs. destruct (decide (k (self w') = 0%Z));
    by destruct (scores (self w')).
Qed.

(** [__get_mask] raises no [TypeError]. *)
Lemma get_mask_no_TypeError w e w' :
  __get_mask w = (Raise e, w') → is_TypeError e = false.
Proof.
  unfold __get_mask, mbind, M_bind, get_self, raise, mret, M_ret; simpl.
  destruct (decide (k (self w) = 0%Z)), (scores (self w));
    intros H; inversion H; done.
Qed.

(** [transform] once the mask is known. *)
Lemma transform_with_mask w mask (X : pd.DataFrame) :
  __get_mask w = (Ok mask, w) →
  transform (PyDataFrame X) w =
    if negb (np.any mask) then (Raise (ValueError msg_no_features), w)
    else if decide (length mask ≠ pd.n_features X)
    then (Raise (ValueError msg_shape), w)
    else (Ok (pd.mkDataFrame (pd.n_samples X) (pd.select mask (pd.columns X))), w).
Proof.
  intros Hm. unfold transform, mbind, M_bind. rewrite Hm.
  destruct (negb (np.any mask)); [done|].
  destruct (decide (length mask ≠ pd.n_features X)) as [Hne|Heq]; [done|].
  unfold lift, pd.iloc_columns.
  destruct (decide (length mask = pd.n_features X)); [done|].
  by destruct Heq.
Qed.

End method_facts.

Section fit_facts.

Import SelectKBest.

Variable sklearn_f_classif sklearn_f_regression :
  pd.DataFrame → pd.Series → outcome (np.ndarray * np.ndarray).

Local Abbreviation fit := (fit sklearn_f_classif sklearn_f_regression).
Local Abbreviation apply := (apply sklearn_f_classif sklearn_f_regression).

Local Ltac run_M :=
  unfold SelectKBest.fit, store, call, set_score_func, set_scores,
    set_pvalues, set_self, get_self, raise, lift, mbind, M_bind, mret,
    M_ret in *;
  simpl in *.

Lemma resolved_not_None v ys : resolved v ys ≠ SFNone.
Proof. by destruct v. Qed.

Lemma resolved_fixed v ys : v ≠ SFNone → resolved v ys = v.
Proof. by destruct v. Qed.

Lemma fit_not_dataframe X y w :
  is_DataFrame X = false →
  fit X y w = (Raise (TypeError msg_not_dataframe), w).
Proof. by destruct X. Qed.

Lemma fit_not_series X y w :
  is_DataFrame X = true → is_Series y = false →
  fit X y w = (Raise (TypeError msg_not_series), w).
Proof. by destruct X, y. Qed.

Lemma fit_not_callable df ys w :
  is_callable (resolved (score_func (self w)) ys) = false →
  fit (PyDataFrame df) (PySeries ys) w
  = (Raise (TypeError (msg_not_callable (score_func (self w)))), w).
Proof.
  destruct w as [[kk v sc pv] cs]; simpl. intros Hv.
  destruct v; simpl in Hv; try done; by run_M.
Qed.

(** A call of [fit] that passes the three checks resolves the scorer,
    calls it once, and stores what it returned. *)
Lemma fit_callable df ys w f :
  resolved (score_func (self w)) ys = SFCallable f →
  fit (PyDataFrame df) (PySeries ys) w =
    let s := self w in
    let cs := calls w ++ [(f, df, ys)] in
    match apply f df ys with
    | Raise e =>
        (Raise e, mkWorld (mk (k s) (SFCallable f) (scores s) (pvalues s)) cs)
    | Ok ret =>
        match ret_scores ret with
        | Some a =>
            (Ok (), mkWorld (mk (k s) (SFCallable f) (Some a) (ret_pvalues ret)) cs)
        | None =>
            (Raise (ValueError (msg_unpack
               (match ret with RetSeq items => length items | _ => 0%nat end))),
             mkWorld (mk (k s) (SFCallable f) (scores s) (pvalues s)) cs)
        end
    end.
Proof.
  destruct w as [[kk v sc pv] cs]; simpl. intros Hv.
  destruct v; simpl in Hv; try done; inversion Hv; subst; clear Hv.
  - unfold auto_scorer. run_M.
    destruct (decide (pd.nunique ys ≤ 15)%nat); simpl;
      match goal with |- context [pair_ret ?o] => destruct o as [[F p]|e] end;
      simpl; done.
  - run_M. destruct (SelectKBest.apply _ _ f df ys) as [[a|items]|e]; simpl;
      [done| |done].
    destruct items as [|s [|p [|q items]]]; simpl; done.
Qed.

(** A successful [fit], read backwards. *)
Lemma fit_ok_inv X y w w1 :
  fit X y w = (Ok (), w1) →
  ∃ df ys f ret a,
    X = PyDataFrame df ∧ y = PySeries ys ∧
    resolved (score_func (self w)) ys = SFCallable f ∧
    apply f df ys = Ok ret ∧ ret_scores ret = Some a ∧
    w1 = mkWorld (mk (k (self w)) (SFCallable f) (Some a) (ret_pvalues ret))
                 (calls w ++ [(f, df, ys)]).
Proof.
  intros H.
  destruct (is_DataFrame X) eqn:EX;
    [|by rewrite fit_not_dataframe in H].
  destruct (is_Series y) eqn:Ey;
    [|by rewrite fit_not_series in H].
  destruct X as [| | | |df|]; try done. destruct y as [| | | | |ys]; try done.
  destruct (resolved (score_func (self w)) ys) as [|f|s|n] eqn:Ev;
    try (rewrite fit_not_callable in H by (by rewrite Ev); done).
  rewrite (fit_callable _ _ _ f Ev) in H. simpl in H.
  destruct (apply f df ys) as [ret|e] eqn:Ea; [|done].
  destruct (ret_scores ret) as [a|] eqn:Er; [|done].
  inversion H. by exists df, ys, f, ret, a.
Qed.

(** Whatever its outcome, [fit] on a table and a vector leaves
    [score_func] resolved. *)
Lemma fit_score_func df ys w :
  score_func (self (snd (fit (PyDataFrame df) (PySeries ys) w)))
  = resolved (score_func (self w)) ys.
Proof.
  destruct (resolved (score_func (self w)) ys) as [|f|s|n] eqn:Ev.
  - by destruct (resolved_not_None _ _ Ev).
  - rewrite (fit_callable _ _ _ f Ev). simpl.
    destruct (apply f df ys) as [ret|e]; [|done].
    by destruct (ret_scores ret).
  - rewrite fit_not_callable by (by rewrite Ev). simpl.
    rewrite <- Ev. symmetry. apply resolved_fixed.
    intros E. by rewrite E in Ev.
  - rewrite fit_not_callable by (by rewrite Ev). simpl.
    rewrite <- Ev. symmetry. apply resolved_fixed.
    intros E. by rewrite E in Ev.
Qed.

Lemma fit_calls df ys w f :
  resolved (score_func (self w)) ys = SFCallable f →
  calls (snd (fit (PyDataFrame df) (PySeries ys) w))
  = calls w ++ [(f, df, ys)].
Proof.
  intros Ev. rewrite (fit_callable _ _ _ f Ev). simpl.
  destruct (apply f df ys) as [ret|e]; [|done].
  by destruct (ret_scores ret).
Qed.

End fit_facts.

(** ** The contract of the selector *)

Section contract.

Import SelectKBest.

Local Open Scope nat_scope.

(** C1.  After a successful [fit], [transform] of a table [X] whose
    number of columns is the number of fitted scores, with
    [0 < k ≤ n_features], returns without error a table of exactly [k]
    columns; they are columns of [X] in their original relative order,
    and the table keeps the [n_samples] rows of [X].  The selector is
    left as it was; a table with one cell per row in every column
    stays such a table. *)
Theorem transform_after_fit_keeps_k_columns
    (sk1 sk2 : pd.DataFrame → pd.Series → outcome (np.ndarray * np.ndarray))
    (X0 y0 : pyobj) (w w1 : world) (X : pd.DataFrame) :
  fit sk1 sk2 X0 y0 w = (Ok (), w1) →
  (∀ a, scores (self w1) = Some a → length a = pd.n_features X) →
  (0 < k (self w1) ≤ Z.of_nat (pd.n_features X))%Z →
  ∃ X_new,
    transform (PyDataFrame X) w1 = (Ok X_new, w1) ∧
    pd.n_features X_new = Z.to_nat (k (self w1)) ∧
    pd.columns X_new `sublist_of` pd.columns X ∧
    pd.n_samples X_new = pd.n_samples X ∧
    (pd.well_formed X → pd.well_formed X_new).
Proof.
  intros Hfit Hcompat Hk.
  destruct (fit_ok_inv _ _ _ _ _ _ Hfit)
    as (df & ys & f & ret & a & _ & _ & _ & _ & _ & Hw1).
  assert (scores (self w1) = Some a) as Hs by (by subst w1).
  specialize (Hcompat a Hs).
  assert (k (self w1) ≠ 0%Z) as Hk0 by lia.
  pose proof (get_mask_fitted w1 a Hs Hk0) as Hmask.
  set (mask := kbest_mask (k (self w1)) a) in *.
  assert (count_true mask = Z.to_nat (k (self w1))) as Hcount.
  { unfold mask. rewrite kbest_mask_count.
    apply slice_from_neg_length. rewrite argsort_length. lia. }
  assert (length mask = pd.n_features X) as Hlen.
  { unfold mask. by rewrite kbest_mask_length. }
  rewrite (transform_with_mask _ _ _ Hmask).
  assert (np.any mask = true) as -> by (apply any_count; lia).
  simpl. destruct (decide (length mask ≠ pd.n_features X)); [done|].
  eexists. split; [done|]. unfold pd.n_features in *. simpl.
  split; [by rewrite select_length|].
  split; [apply select_sublist|]. split; [done|].
  unfold pd.well_formed. simpl. rewrite !Forall_forall.
  intros Hwf c Hc. apply Hwf.
  eapply elem_of_sublist; [exact Hc|apply select_sublist].
Qed.

Lemma transform_after_fit_keeps_k_columns_witness :
  ∃ X_new,
    transform (PyDataFrame X_pqrs) fitted_5351 = (Ok X_new, fitted_5351) ∧
    pd.n_features X_new = 2 ∧
    pd.columns X_new `sublist_of` pd.columns X_pqrs ∧
    pd.n_samples X_new = 2 ∧
    (pd.well_formed X_pqrs → pd.well_formed X_new).
Proof.
  apply (transform_after_fit_keeps_k_columns first_cell_test first_cell_test
           (PyDataFrame X_abcd) (PySeries y_abc)
           (fresh (__init__ (SFCallable scores_5351) 2)) fitted_5351 X_pqrs).
  - reflexivity.
  - intros a H. inversion H. reflexivity.
  - vm_compute. split; [reflexivity|discriminate].
Defined.

(** C2.  On a fitted selector with [k > 0] the mask has one entry per
    score and is true exactly at the last [k] positions of the stable
    ascending sort of the scores (all of them when there are fewer than
    [k]).  So a selected position brings along every position that comes
    after it in that order: every higher score, and every equal score of
    a later column.  For the scores 5, 3, 5, 1 and [k = 2] the mask
    selects the positions 0 and 2. *)
Theorem mask_is_last_k_of_stable_sort (w : world) (a : np.ndarray) :
  scores (self w) = Some a →
  (0 < k (self w))%Z →
  (∃ mask,
     __get_mask w = (Ok mask, w) ∧
     length mask = length a ∧
     (∀ order, stable_ascending a order →
        ∀ i, selected mask i ↔
             i ∈ drop (length order - Z.to_nat (k (self w))) order) ∧
     (∀ i j, selected mask i → j < length a → before a i j →
             selected mask j)) ∧
  __get_mask (fresh (mk 2 SFNone (Some [5; 3; 5; 1]%Q) None))
  = (Ok [true; false; true; false],
     fresh (mk 2 SFNone (Some [5; 3; 5; 1]%Q) None)).
Proof.
  intros Hs Hk. split; [|reflexivity].
  assert (k (self w) ≠ 0%Z) as Hk0 by lia.
  exists (kbest_mask (k (self w)) a).
  split; [by apply get_mask_fitted|].
  split; [apply kbest_mask_length|].
  assert (∀ i, selected (kbest_mask (k (self w)) a) i ↔
    i ∈ drop (length (np.argsort a) - Z.to_nat (k (self w))) (np.argsort a))
    as Hsel.
  { intros i. rewrite kbest_mask_selected. by rewrite slice_from_neg. }
  split.
  - intros order Ho. by rewrite (stable_ascending_unique a order Ho).
  - intros i j Hi Hj Hij. apply Hsel. apply Hsel in Hi.
    set (n0 := length (np.argsort a) - Z.to_nat (k (self w))) in *.
    assert (j ∈ take n0 (np.argsort a) ++ drop n0 (np.argsort a)) as Hin.
    { rewrite take_drop. by apply argsort_elem_of. }
    apply elem_of_app in Hin as [Hin|Hin]; [|done].
    destruct (before_asym a i j Hij).
    apply (StronglySorted_app_1_elem_of (before a)
             (take n0 (np.argsort a)) (drop n0 (np.argsort a))); [|done|done].
    rewrite take_drop. apply argsort_stable_ascending.
Qed.

Lemma mask_is_last_k_of_stable_sort_witness :
  (∃ mask,
     __get_mask (fresh (mk 3 SFNone (Some [2; 7; 2; 7; 1]%Q) None))
     = (Ok mask, fresh (mk 3 SFNone (Some [2; 7; 2; 7; 1]%Q) None)) ∧
     length mask = 5 ∧
     (∀ order, stable_ascending [2; 7; 2; 7; 1]%Q order →
        ∀ i, selected mask i ↔ i ∈ drop (length order - 3) order) ∧
     (∀ i j, selected mask i → j < 5 → before [2; 7; 2; 7; 1]%Q i j →
             selected mask j)) ∧
  __get_mask (fresh (mk 2 SFNone (Some [5; 3; 5; 1]%Q) None))
  = (Ok [true; false; true; false],
     fresh (mk 2 SFNone (Some [5; 3; 5; 1]%Q) None)).
Proof.
  apply (mask_is_last_k_of_stable_sort
           (fresh (mk 3 SFNone (Some [2; 7; 2; 7; 1]%Q) None))
           [2; 7; 2; 7; 1]%Q).
  - reflexivity.
  - reflexivity.
Defined.

(** C3.  [fit] on a table and a vector, on a selector whose
    [score_func] is [None]: whatever the outcome of the call, the
    selector ends with [score_func] set to [f_classif] when [y] has at
    most 15 distinct values and to [f_regression] otherwise, and that
    function is the one called on [(X, y)].  A later [fit], on any table
    and any vector, finds [score_func] set, keeps it and calls it: the
    new target is not counted. *)
Theorem fit_auto_selects_and_keeps_scorer
    (sk1 sk2 : pd.DataFrame → pd.Series → outcome (np.ndarray * np.ndarray))
    (w : world) (X : pd.DataFrame) (y : pd.Series) :
  score_func (self w) = SFNone →
  let chosen := if decide (pd.nunique y ≤ 15) then f_classif else f_regression in
  let w1 := snd (fit sk1 sk2 (PyDataFrame X) (PySeries y) w) in
  score_func (self w1) = SFCallable chosen ∧
  calls w1 = calls w ++ [(chosen, X, y)] ∧
  ∀ (X' : pd.DataFrame) (y' : pd.Series),
    let w2 := snd (fit sk1 sk2 (PyDataFrame X') (PySeries y') w1) in
    score_func (self w2) = SFCallable chosen ∧
    calls w2 = calls w1 ++ [(chosen, X', y')].
Proof.
  intros Hnone chosen w1.
  assert (resolved (score_func (self w)) y = SFCallable chosen) as Hres.
  { by rewrite Hnone. }
  assert (score_func (self w1) = SFCallable chosen) as Hsf.
  { unfold w1. by rewrite fit_score_func. }
  split; [done|]. split; [by apply fit_calls|].
  intros X' y' w2.
  assert (resolved (score_func (self w1)) y' = SFCallable chosen) as Hres'.
  { by rewrite Hsf. }
  split; [|by apply fit_calls].
  unfold w2. by rewrite fit_score_func.
Qed.

Lemma fit_auto_selects_and_keeps_scorer_witness :
  score_func (self fitted_default) = SFCallable f_classif ∧
  calls fitted_default = [(f_classif, X_abcd, y_abc)] ∧
  ∀ (X' : pd.DataFrame) (y' : pd.Series),
    score_func (self (snd (fit first_cell_test first_cell_test
                             (PyDataFrame X') (PySeries y') fitted_default)))
    = SFCallable f_classif ∧
    calls (snd (fit first_cell_test first_cell_test
                  (PyDataFrame X') (PySeries y') fitted_default))
    = calls fitted_default ++ [(f_classif, X', y')].
Proof.
  apply (fit_auto_selects_and_keeps_scorer first_cell_test first_cell_test
           (fresh default) X_abcd y_abc).
  reflexivity.
Defined.

(** C4.  [fit_transform(X, y)] is [fit(X, y)] followed by [transform(X)]
    on the same [X]: the outcome and the final selector are those of
    [fit] when [fit] fails, and those of [transform] on the fitted
    selector otherwise.  The checks of [fit] come first: a nested list
    passed as [X] to an unfitted selector is refused by [fit]'s type
    check, not by [transform]'s fitted check. *)
Theorem fit_transform_is_fit_then_transform
    (sk1 sk2 : pd.DataFrame → pd.Series → outcome (np.ndarray * np.ndarray))
    (X y : pyobj) (w : world) :
  fit_transform sk1 sk2 X y w = fit_then_transform sk1 sk2 X y w ∧
  fit_transform sk1 sk2 (PyList [[1; 2]%Q]) (PySeries y_abc) (fresh default)
  = (Raise (TypeError msg_not_dataframe), fresh default).
Proof.
  split; [|reflexivity].
  unfold fit_transform, fit_then_transform, mbind, M_bind.
  by destruct (fit sk1 sk2 X y w) as [[[]|e] w1].
Qed.

(** C5, amended.  On a fitted selector with [k ≥ n_features ≥ 1],
    [transform] of a table with as many columns as fitted scores returns
    the whole table, columns in their order, and raises nothing; [k] may
    exceed [n_features]. *)
Theorem transform_keeps_all_columns_when_k_large
    (w : world) (a : np.ndarray) (X : pd.DataFrame) :
  scores (self w) = Some a →
  length a = pd.n_features X →
  1 ≤ pd.n_features X →
  (Z.of_nat (pd.n_features X) ≤ k (self w))%Z →
  transform (PyDataFrame X) w = (Ok X, w).
Proof.
  intros Hs Hlen Hn Hk.
  assert (k (self w) ≠ 0%Z) as Hk0 by lia.
  rewrite (transform_with_mask _ _ _ (get_mask_fitted w a Hs Hk0)).
  rewrite kbest_mask_all by lia.
  assert (np.any (replicate (length a) true) = true) as ->.
  { apply any_selected. exists 0. apply lookup_replicate_2. lia. }
  simpl. rewrite length_replicate.
  destruct (decide (length a ≠ pd.n_features X)); [done|].
  rewrite Hlen. unfold pd.n_features. rewrite select_all. by destruct X.
Qed.

Lemma transform_keeps_all_columns_when_k_large_witness :
  transform (PyDataFrame X_pqrs)
    (fresh (mk 7 SFNone (Some [5; 3; 5; 1]%Q) None))
  = (Ok X_pqrs, fresh (mk 7 SFNone (Some [5; 3; 5; 1]%Q) None)).
Proof.
  apply (transform_keeps_all_columns_when_k_large
           (fresh (mk 7 SFNone (Some [5; 3; 5; 1]%Q) None))
           [5; 3; 5; 1]%Q X_pqrs).
  - reflexivity.
  - reflexivity.
  - vm_compute. repeat constructor.
  - vm_compute. discriminate.
Defined.

(** C5 as stated fails on a table without columns: a scorer that returns
    one score per column returns none, [fit] succeeds, [k = 1] is at
    least [n_features = 0], and [transform] raises the empty-selection
    error. *)
Lemma transform_k_large_fails_on_no_columns :
  fit first_cell_test first_cell_test (PyDataFrame X_empty) (PySeries y_abc)
    (fresh (__init__ (SFCallable first_cell_scores) 1))
  = (Ok (), fitted_empty) ∧
  scores (self fitted_empty) = Some [] ∧
  pd.n_features X_empty = 0 ∧
  k (self fitted_empty) = 1%Z ∧
  transform (PyDataFrame X_empty) fitted_empty
  = (Raise (ValueError msg_no_features), fitted_empty).
Proof. repeat split. Qed.

(** C6.  On a selector with [k > 0] and no scores, [transform] of any
    argument raises the [ValueError] that asks to fit the estimator
    first, and leaves the selector as it was. *)
Theorem transform_unfitted_raises (w : world) (X : pyobj) :
  scores (self w) = None →
  (0 < k (self w))%Z →
  transform X w = (Raise (ValueError msg_not_fitted), w) ∧
  contains "Please fit the estimator before calling transform"
    msg_not_fitted = true.
Proof.
  intros Hs Hk. split; [|reflexivity].
  unfold transform, mbind, M_bind.
  rewrite get_mask_unfitted by (done || lia). done.
Qed.

Lemma transform_unfitted_raises_witness :
  transform (PyDataFrame X_abcd) (fresh default)
  = (Raise (ValueError msg_not_fitted), fresh default) ∧
  contains "Please fit the estimator before calling transform"
    msg_not_fitted = true.
Proof.
  apply (transform_unfitted_raises (fresh default) (PyDataFrame X_abcd)).
  - reflexivity.
  - reflexivity.
Defined.

(** X16.  On a fitted selector with [k = 0] the mask is all-false with
    one entry per score, and [transform] of any argument raises the
    empty-selection [ValueError], leaving the selector as it was. *)
Theorem transform_k_zero_fitted_raises
    (w : world) (a : np.ndarray) (X : pyobj) :
  k (self w) = 0%Z →
  scores (self w) = Some a →
  __get_mask w = (Ok (replicate (length a) false), w) ∧
  transform X w = (Raise (ValueError msg_no_features), w).
Proof.
  intros Hk Hs. pose proof (get_mask_zero w a Hs Hk) as Hm.
  split; [done|].
  unfold transform, mbind, M_bind. rewrite Hm.
  by rewrite zeros_any.
Qed.

Lemma transform_k_zero_fitted_raises_witness :
  __get_mask (fresh (mk 0 SFNone (Some [5; 3; 5; 1]%Q) None))
  = (Ok (replicate 4 false), fresh (mk 0 SFNone (Some [5; 3; 5; 1]%Q) None)) ∧
  transform (PyDataFrame X_abcd) (fresh (mk 0 SFNone (Some [5; 3; 5; 1]%Q) None))
  = (Raise (ValueError msg_no_features),
     fresh (mk 0 SFNone (Some [5; 3; 5; 1]%Q) None)).
Proof.
  apply (transform_k_zero_fitted_raises
           (fresh (mk 0 SFNone (Some [5; 3; 5; 1]%Q) None))
           [5; 3; 5; 1]%Q (PyDataFrame X_abcd)).
  - reflexivity.
  - reflexivity.
Defined.

(** C7.  With [k = 0] every call of [transform] is to fail with the
    empty-selection [ValueError], whatever the rest of the selector.  On
    a selector that was never fitted the code does not: line 65 of
    [__get_mask] reads the shape of [scores] before the test of lines
    67-70, which only the [k ≠ 0] path reaches, so [transform] stops on
    an [AttributeError], which is no [ValueError]. *)
Lemma transform_k_zero_unfitted_attribute_error :
  k (self (fresh (__init__ SFNone 0))) = 0%Z ∧
  transform (PyDataFrame X_abcd) (fresh (__init__ SFNone 0))
  = (Raise (AttributeError "'NoneType' object has no attribute 'shape'"),
     fresh (__init__ SFNone 0)) ∧
  (∀ msg, fst (transform (PyDataFrame X_abcd) (fresh (__init__ SFNone 0)))
          ≠ Raise (ValueError msg)).
Proof. repeat split. intros msg. discriminate. Qed.

(** C8.  When [X] is not a [DataFrame], or [y] is not a [Series], or
    [score_func] after auto-resolution is not callable, [fit] raises a
    [TypeError] and leaves the selector and the log of scorer calls as
    they were: no attribute is written and no scoring function is
    called.  The message is that of the first check that fails; the
    first two name the expected pandas type, the third prints the value
    of [score_func] and its type. *)
Theorem fit_rejects_bad_types
    (sk1 sk2 : pd.DataFrame → pd.Series → outcome (np.ndarray * np.ndarray))
    (X y : pyobj) (w : world) :
  is_DataFrame X = false ∨ is_Series y = false ∨
  (∀ ys, y = PySeries ys →
         is_callable (resolved (score_func (self w)) ys) = false) →
  (∃ msg,
     fit sk1 sk2 X y w = (Raise (TypeError msg), w) ∧
     (is_DataFrame X = false ∧ msg = msg_not_dataframe
      ∨ is_DataFrame X = true ∧ is_Series y = false ∧ msg = msg_not_series
      ∨ is_DataFrame X = true ∧ is_Series y = true ∧
        msg = msg_not_callable (score_func (self w)))) ∧
  contains "pandas.core.frame.DataFrame" msg_not_dataframe = true ∧
  contains "pandas.core.series.Series" msg_not_series = true ∧
  (∀ v, contains (str v) (msg_not_callable v) = true ∧
        contains (type_str v) (msg_not_callable v) = true) ∧
  msg_not_callable (SFStr "invalid")
  = "The score function should be a callable, invalid of type (<class 'str'>) was passed."%string.
Proof.
  intros H.
  split; [|split; [reflexivity|split; [reflexivity|split;
    [apply msg_not_callable_names|reflexivity]]]].
  destruct (is_DataFrame X) eqn:EX.
  - destruct (is_Series y) eqn:Ey.
    + destruct X as [| | | |df|]; try done.
      destruct y as [| | | | |ys]; try done.
      destruct H as [H|[H|H]]; try done.
      exists (msg_not_callable (score_func (self w))).
      split; [by apply fit_not_callable, H|]. by right; right.
    + exists msg_not_series. split; [by apply fit_not_series|].
      by right; left.
  - exists msg_not_dataframe. split; [by apply fit_not_dataframe|].
    by left.
Qed.

Lemma fit_rejects_bad_types_witness :
  (∃ msg,
     fit first_cell_test first_cell_test (PyDataFrame X_abcd) (PySeries y_abc)
       (fresh (__init__ (SFStr "invalid") 2))
     = (Raise (TypeError msg), fresh (__init__ (SFStr "invalid") 2)) ∧
     (is_DataFrame (PyDataFrame X_abcd) = false ∧ msg = msg_not_dataframe
      ∨ is_DataFrame (PyDataFrame X_abcd) = true ∧
        is_Series (PySeries y_abc) = false ∧ msg = msg_not_series
      ∨ is_DataFrame (PyDataFrame X_abcd) = true ∧
        is_Series (PySeries y_abc) = true ∧
        msg = msg_not_callable (SFStr "invalid"))) ∧
  contains "pandas.core.frame.DataFrame" msg_not_dataframe = true ∧
  contains "pandas.core.series.Series" msg_not_series = true ∧
  (∀ v, contains (str v) (msg_not_callable v) = true ∧
        contains (type_str v) (msg_not_callable v) = true) ∧
  msg_not_callable (SFStr "invalid")
  = "The score function should be a callable, invalid of type (<class 'str'>) was passed."%string.
Proof.
  apply (fit_rejects_bad_types first_cell_test first_cell_test
           (PyDataFrame X_abcd) (PySeries y_abc)
           (fresh (__init__ (SFStr "invalid") 2))).
  right. right. intros ys _. reflexivity.
Defined.

(** C9.  Of two successive successful calls of [fit], the second leaves
    in [scores] and [pvalues] what the scoring function returned on the
    second call's [(X, y)]: the scores of the single array or of the
    pair, the p-values of the pair and [None] otherwise.  The [scores]
    and [pvalues] of the first call play no part: from any selector with
    the same [k] and [score_func], whatever its [scores] and [pvalues],
    the second call succeeds with the same [scores], [pvalues] and
    mask. *)
Theorem refit_overwrites_scores_and_pvalues
    (sk1 sk2 : pd.DataFrame → pd.Series → outcome (np.ndarray * np.ndarray))
    (X1 y1 X2 y2 : pyobj) (w w1 w2 : world) :
  fit sk1 sk2 X1 y1 w = (Ok (), w1) →
  fit sk1 sk2 X2 y2 w1 = (Ok (), w2) →
  ∃ df ys f ret,
    X2 = PyDataFrame df ∧ y2 = PySeries ys ∧
    score_func (self w1) = SFCallable f ∧
    apply sk1 sk2 f df ys = Ok ret ∧
    is_Some (scores (self w2)) ∧
    scores (self w2) = ret_scores ret ∧
    pvalues (self w2) = ret_pvalues ret ∧
    ∀ w1',
      k (self w1') = k (self w1) →
      score_func (self w1') = score_func (self w1) →
      ∃ w2',
        fit sk1 sk2 X2 y2 w1' = (Ok (), w2') ∧
        scores (self w2') = scores (self w2) ∧
        pvalues (self w2') = pvalues (self w2) ∧
        fst (__get_mask w2') = fst (__get_mask w2).
Proof.
  intros Hfit1 Hfit2.
  destruct (fit_ok_inv _ _ _ _ _ _ Hfit1)
    as (df1 & ys1 & f1 & ret1 & a1 & _ & _ & _ & _ & _ & Hw1).
  destruct (fit_ok_inv _ _ _ _ _ _ Hfit2)
    as (df & ys & f & ret & a & -> & -> & Hres & Happ & Hret & Hw2).
  assert (score_func (self w1) = SFCallable f1) as Hsf by (by subst w1).
  assert (f = f1) as -> by (rewrite Hsf in Hres; simpl in Hres; congruence).
  exists df, ys, f1, ret.
  repeat (split; [by subst w2; simpl; eauto|]).
  intros w1' Hk' Hsf'.
  assert (resolved (score_func (self w1')) ys = SFCallable f1) as Hres'.
  { by rewrite Hsf', Hsf. }
  rewrite (fit_callable _ _ _ _ _ _ Hres'). simpl. rewrite Happ, Hret.
  eexists. split; [done|]. subst w2. simpl.
  split; [done|]. split; [done|].
  apply get_mask_depends; simpl; [|done]. by rewrite Hk', Hw1.
Qed.

Lemma refit_overwrites_scores_and_pvalues_witness :
  ∃ df ys f ret,
    PyDataFrame X_pqrs = PyDataFrame df ∧ PySeries y_abc = PySeries ys ∧
    score_func (self fitted_abcd) = SFCallable f ∧
    apply first_cell_test first_cell_test f df ys = Ok ret ∧
    is_Some (scores (self refitted_pqrs)) ∧
    scores (self refitted_pqrs) = ret_scores ret ∧
    pvalues (self refitted_pqrs) = ret_pvalues ret ∧
    ∀ w1',
      k (self w1') = k (self fitted_abcd) →
      score_func (self w1') = score_func (self fitted_abcd) →
      ∃ w2',
        fit first_cell_test first_cell_test
          (PyDataFrame X_pqrs) (PySeries y_abc) w1' = (Ok (), w2') ∧
        scores (self w2') = scores (self refitted_pqrs) ∧
        pvalues (self w2') = pvalues (self refitted_pqrs) ∧
        fst (__get_mask w2') = fst (__get_mask refitted_pqrs).
Proof.
  apply (refit_overwrites_scores_and_pvalues first_cell_test first_cell_test
           (PyDataFrame X_abcd) (PySeries y_abc)
           (PyDataFrame X_pqrs) (PySeries y_abc)
           (fresh (__init__ (SFCallable first_cell_scores) 2))
           fitted_abcd refitted_pqrs).
  - reflexivity.
  - reflexivity.
Defined.

(** C10.  On a fitted selector, [transform] of a table looks at the
    table's number of columns and at nothing else of it: it raises the
    empty-selection [ValueError] when the mask selects nothing, else the
    shape [ValueError] when the number of columns is not the number of
    fitted scores, else it returns the columns the mask selects, with
    every row, whatever their names and cells.  And [transform] tests no
    type: on no argument and no selector does it raise a [TypeError]. *)
Theorem transform_checks_only_column_count
    (w : world) (a : np.ndarray) (X : pd.DataFrame) :
  scores (self w) = Some a →
  (∃ mask,
     __get_mask w = (Ok mask, w) ∧
     length mask = length a ∧
     transform (PyDataFrame X) w =
       (if negb (np.any mask) then Raise (ValueError msg_no_features)
        else if decide (length a = pd.n_features X)
        then Ok (pd.mkDataFrame (pd.n_samples X) (pd.select mask (pd.columns X)))
        else Raise (ValueError msg_shape),
        w)) ∧
  (∀ (X' : pyobj) (w' : world) (e : exn),
     fst (transform X' w') = Raise e → is_TypeError e = false).
Proof.
  intros Hs. split.
  - destruct (get_mask_ok w a Hs) as (mask & Hm & Hlen).
    exists mask. split; [done|]. split; [done|].
    rewrite (transform_with_mask _ _ _ Hm). rewrite Hlen.
    destruct (negb (np.any mask)); [done|].
    destruct (decide (length a ≠ pd.n_features X)),
      (decide (length a = pd.n_features X)); done.
  - intros X' w' e. unfold transform, mbind, M_bind.
    destruct (__get_mask w') as [[mask|e'] w''] eqn:Hm; simpl.
    + destruct (negb (np.any mask)); [by intros [= <-]|].
      destruct X' as [| | | |df|]; try by intros [= <-].
      unfold lift, pd.iloc_columns, raise.
      destruct (decide (length mask ≠ pd.n_features df)); [by intros [= <-]|].
      destruct (decide (length mask = pd.n_features df)); by intros [= <-].
    + intros [= <-]. by apply get_mask_no_TypeError in Hm.
Qed.

Lemma transform_checks_only_column_count_witness :
  (∃ mask,
     __get_mask fitted_5351 = (Ok mask, fitted_5351) ∧
     length mask = 4 ∧
     transform (PyDataFrame X_pqrs) fitted_5351 =
       (if negb (np.any mask) then Raise (ValueError msg_no_features)
        else if decide (4 = pd.n_features X_pqrs)
        then Ok (pd.mkDataFrame (pd.n_samples X_pqrs)
                   (pd.select mask (pd.columns X_pqrs)))
        else Raise (ValueError msg_shape),
        fitted_5351)) ∧
  (∀ (X' : pyobj) (w' : world) (e : exn),
     fst (transform X' w') = Raise e → is_TypeError e = false).
Proof.
  apply (transform_checks_only_column_count fitted_5351 [5; 3; 5; 1]%Q X_pqrs).
  reflexivity.
Defined.

(** ** The scenarios, run *)

(** [fit_transform] with [k = 2] keeps the two best-scored columns. *)
Example fit_transform_keeps_two_best :
  fit_transform first_cell_test first_cell_test
    (PyDataFrame X_abcd) (PySeries y_abc)
    (fresh (__init__ (SFCallable first_cell_scores) 2))
  = (Ok (pd.mkDataFrame 3
           [pd.mkColumn "b" [4; 5; 6]%Q; pd.mkColumn "c" [7; 8; 9]%Q]),
     fitted_abcd).
Proof. reflexivity. Qed.

(** A table of three columns after a fit on four is refused. *)
Example transform_refuses_other_shape :
  transform
    (PyDataFrame (pd.mkDataFrame 3
       [pd.mkColumn "a" [1; 2; 3]%Q; pd.mkColumn "b" [4; 5; 6]%Q;
        pd.mkColumn "c" [7; 8; 9]%Q]))
    fitted_abcd
  = (Raise (ValueError msg_shape), fitted_abcd).
Proof. reflexivity. Qed.

(** A table of four other columns after a fit on four is accepted. *)
Example transform_accepts_other_columns :
  transform (PyDataFrame X_pqrs) fitted_5351
  = (Ok (pd.mkDataFrame 2
           [pd.mkColumn "p" [10; 20]%Q; pd.mkColumn "r" [50; 60]%Q]),
     fitted_5351).
Proof. reflexivity. Qed.

(** A nested list as [X] is refused with the name of the expected type. *)
Example fit_refuses_nested_list :
  fit first_cell_test first_cell_test
    (PyList [[1; 2]%Q; [3; 4]%Q]) (PySeries y_abc) (fresh default)
  = (Raise (TypeError msg_not_dataframe), fresh default).
Proof. reflexivity. Qed.

(** With a negative [k] the slice drops the [|k|] lowest scores. *)
Example mask_negative_k :
  __get_mask (fresh (mk (-1) SFNone (Some [5; 3; 5; 1]%Q) None))
  = (Ok [true; true; true; false],
     fresh (mk (-1) SFNone (Some [5; 3; 5; 1]%Q) None)).
Proof. reflexivity. Qed.

End contract.

(** ** What the methods keep and what they leave behind *)

Section frame_facts.

Import SelectKBest.

Variable sklearn_f_classif sklearn_f_regression :
  pd.DataFrame → pd.Series → outcome (np.ndarray * np.ndarray).

Local Abbreviation fit := (fit sklearn_f_classif sklearn_f_regression).
Local Abbreviation apply := (apply sklearn_f_classif sklearn_f_regression).

(** A call of [fit] stops on one of its type checks, selector untouched,
    or reaches the call of the resolved scorer. *)
Lemma fit_cases X y w :
  (∃ msg, fit X y w = (Raise (TypeError msg), w)) ∨
  (∃ df ys f, X = PyDataFrame df ∧ y = PySeries ys ∧
              resolved (score_func (self w)) ys = SFCallable f).
Proof.
  destruct (is_DataFrame X) eqn:EX;
    [|left; eexists; by apply fit_not_dataframe].
  destruct (is_Series y) eqn:Ey;
    [|left; eexists; by apply fit_not_series].
  destruct X as [| | | |df|]; try done. destruct y as [| | | | |ys]; try done.
  destruct (resolved (score_func (self w)) ys) as [|f|s|n] eqn:Ev;
    try (left; eexists; apply fit_not_callable; by rewrite Ev).
  right. by exists df, ys, f.
Qed.

Lemma get_mask_snd w : snd (__get_mask w) = w.
Proof.
  unfold __get_mask, mbind, M_bind, get_self, raise, mret, M_ret; simpl.
  by destruct (decide (k (self w) = 0%Z)), (scores (self w)).
Qed.

Lemma transform_snd X w : snd (transform X w) = w.
Proof.
  unfold transform, mbind, M_bind.
  pose proof (get_mask_snd w) as Hw.
  destruct (__get_mask w) as [[mask|e] w']; simpl in Hw; subst w'; [|done].
  destruct (negb (np.any mask)); [done|].
  destruct X as [| | | |df|]; try done.
  unfold lift, raise. by destruct (decide (length mask ≠ pd.n_features df)).
Qed.

(** The outcome of [transform] depends on [k] and [scores] alone. *)
Lemma transform_depends X w w' :
  k (self w) = k (self w') → scores (self w) = scores (self w') →
  fst (transform X w) = fst (transform X w').
Proof.
  intros Hk Hs. unfold transform, mbind, M_bind.
  pose proof (get_mask_depends w w' Hk Hs) as Hm.
  destruct (__get_mask w) as [[mask|e] w1],
    (__get_mask w') as [[mask'|e'] w1']; simpl in Hm; simplify_eq; [|done].
  destruct (negb (np.any mask')); [done|].
  destruct X as [| | | |df|]; try done.
  unfold lift, raise. by destruct (decide (length mask' ≠ pd.n_features df)).
Qed.

Lemma fit_transform_snd X y w :
  snd (fit_transform sklearn_f_classif sklearn_f_regression X y w)
  = snd (fit X y w).
Proof.
  unfold fit_transform, mbind, M_bind.
  destruct (fit X y w) as [[[]|e] w1]; simpl; [apply transform_snd|done].
Qed.

Lemma fit_k X y w : k (self (snd (fit X y w))) = k (self w).
Proof.
  destruct (fit_cases X y w) as [[msg Hm]|(df & ys & f & -> & -> & Hres)].
  - by rewrite Hm.
  - rewrite (fit_callable _ _ _ _ _ _ Hres). simpl.
    destruct (apply f df ys) as [ret|e]; [|done].
    by destruct (ret_scores ret).
Qed.

Lemma fit_keeps_fitted X y w :
  is_Some (scores (self w)) → is_Some (scores (self (snd (fit X y w)))).
Proof.
  intros Hs.
  destruct (fit_cases X y w) as [[msg Hm]|(df & ys & f & -> & -> & Hres)].
  - by rewrite Hm.
  - rewrite (fit_callable _ _ _ _ _ _ Hres). simpl.
    destruct (apply f df ys) as [ret|e]; [|done].
    destruct (ret_scores ret); simpl; eauto.
Qed.

Lemma nunique_le_length (y : pd.Series) : (pd.nunique y ≤ length y)%nat.
Proof.
  induction y as [|v y IH]; simpl; [done|].
  destruct (existsb (Qeq_bool v) y); lia.
Qed.

End frame_facts.

Section frame.

Import SelectKBest.

Local Open Scope nat_scope.

(** X1.  [__get_mask] and [transform] write no attribute and call no
    scoring function: whatever the argument and whatever the outcome,
    the selector and the log of calls are afterwards what they were. *)
Theorem transform_has_no_side_effect (X : pyobj) (w : world) :
  snd (transform X w) = w ∧ snd (__get_mask w) = w.
Proof. split; [apply transform_snd|apply get_mask_snd]. Qed.

(** X2.  A call of [fit] that raises, in a type check, in the scoring
    function or in the unpacking of its result, leaves [k], [scores] and
    [pvalues] as they were; so [transform] behaves after it as it did
    before it. *)
Theorem failed_fit_keeps_previous_fit
    (sk1 sk2 : pd.DataFrame → pd.Series → outcome (np.ndarray * np.ndarray))
    (X y : pyobj) (w w1 : world) (e : exn) :
  fit sk1 sk2 X y w = (Raise e, w1) →
  k (self w1) = k (self w) ∧
  scores (self w1) = scores (self w) ∧
  pvalues (self w1) = pvalues (self w) ∧
  ∀ X', fst (transform X' w1) = fst (transform X' w).
Proof.
  intros Hfit.
  assert (k (self w1) = k (self w) ∧ scores (self w1) = scores (self w) ∧
          pvalues (self w1) = pvalues (self w)) as (Hk & Hs & Hp).
  { destruct (fit_cases sk1 sk2 X y w)
      as [[msg Hm]|(df & ys & f & -> & -> & Hres)].
    - rewrite Hm in Hfit. by simplify_eq.
    - rewrite (fit_callable _ _ _ _ _ _ Hres) in Hfit. simpl in Hfit.
      destruct (apply sk1 sk2 f df ys) as [ret|e']; [|by simplify_eq].
      destruct (ret_scores ret); by simplify_eq. }
  repeat (split; [done|]). intros X'. by apply transform_depends.
Qed.

Lemma failed_fit_keeps_previous_fit_witness :
  k (self (mkWorld (mk 2 (SFCallable raising_scores) (Some [5; 3; 5; 1]%Q) None)
             [(raising_scores, X_abcd, y_abc)])) = 2%Z ∧
  scores (self (mkWorld (mk 2 (SFCallable raising_scores) (Some [5; 3; 5; 1]%Q) None)
                  [(raising_scores, X_abcd, y_abc)])) = Some [5; 3; 5; 1]%Q ∧
  pvalues (self (mkWorld (mk 2 (SFCallable raising_scores) (Some [5; 3; 5; 1]%Q) None)
                   [(raising_scores, X_abcd, y_abc)])) = None ∧
  ∀ X',
    fst (transform X'
           (mkWorld (mk 2 (SFCallable raising_scores) (Some [5; 3; 5; 1]%Q) None)
              [(raising_scores, X_abcd, y_abc)]))
    = fst (transform X'
             (fresh (mk 2 (SFCallable raising_scores) (Some [5; 3; 5; 1]%Q) None))).
Proof.
  apply (failed_fit_keeps_previous_fit first_cell_test first_cell_test
           (PyDataFrame X_abcd) (PySeries y_abc)
           (fresh (mk 2 (SFCallable raising_scores) (Some [5; 3; 5; 1]%Q) None))
           _ (ValueError "Input contains NaN.")).
  reflexivity.
Defined.

(** X3.  [fit_transform] leaves the selector and the log of calls
    exactly as [fit] alone leaves them, and neither method ever changes
    [k]. *)
Theorem fit_transform_leaves_what_fit_leaves
    (sk1 sk2 : pd.DataFrame → pd.Series → outcome (np.ndarray * np.ndarray))
    (X y : pyobj) (w : world) :
  snd (fit_transform sk1 sk2 X y w) = snd (fit sk1 sk2 X y w) ∧
  k (self (snd (fit sk1 sk2 X y w))) = k (self w) ∧
  k (self (snd (fit_transform sk1 sk2 X y w))) = k (self w).
Proof.
  split; [apply fit_transform_snd|]. split; [apply fit_k|].
  rewrite fit_transform_snd. apply fit_k.
Qed.

(** X4.  A successful [fit] leaves the selector fitted: [scores] is set,
    and [transform], whatever its argument and whatever [k], does not
    raise the error that asks to fit the estimator first. *)
Theorem successful_fit_makes_fitted
    (sk1 sk2 : pd.DataFrame → pd.Series → outcome (np.ndarray * np.ndarray))
    (X y : pyobj) (w w1 : world) :
  fit sk1 sk2 X y w = (Ok (), w1) →
  is_Some (scores (self w1)) ∧
  ∀ X', fst (transform X' w1) ≠ Raise (ValueError msg_not_fitted).
Proof.
  intros Hfit.
  destruct (fit_ok_inv _ _ _ _ _ _ Hfit)
    as (df & ys & f & ret & a & _ & _ & _ & _ & _ & Hw1).
  assert (scores (self w1) = Some a) as Hs by (by subst w1).
  split; [by rewrite Hs|]. intros X'.
  destruct (get_mask_ok w1 a Hs) as (mask & Hm & _).
  unfold transform, mbind, M_bind. rewrite Hm.
  destruct (negb (np.any mask)); [by intros [=]|].
  destruct X' as [| | | |df'|]; try by intros [=].
  unfold lift, raise, pd.iloc_columns.
  destruct (decide (length mask ≠ pd.n_features df')); [by intros [=]|].
  destruct (decide (length mask = pd.n_features df')); by intros [=].
Qed.

Lemma successful_fit_makes_fitted_witness :
  is_Some (scores (self fitted_abcd)) ∧
  ∀ X', fst (transform X' fitted_abcd) ≠ Raise (ValueError msg_not_fitted).
Proof.
  apply (successful_fit_makes_fitted first_cell_test first_cell_test
           (PyDataFrame X_abcd) (PySeries y_abc)
           (fresh (__init__ (SFCallable first_cell_scores) 2)) fitted_abcd).
  reflexivity.
Defined.

(** X5.  Once fitted, always fitted: on a selector whose [scores] is
    set, no call of [fit], [transform] or [fit_transform] unsets it,
    whether the call succeeds or raises. *)
Theorem once_fitted_stays_fitted
    (sk1 sk2 : pd.DataFrame → pd.Series → outcome (np.ndarray * np.ndarray))
    (X y : pyobj) (w : world) :
  is_Some (scores (self w)) →
  is_Some (scores (self (snd (fit sk1 sk2 X y w)))) ∧
  is_Some (scores (self (snd (transform X w)))) ∧
  is_Some (scores (self (snd (fit_transform sk1 sk2 X y w)))).
Proof.
  intros Hs. split; [by apply fit_keeps_fitted|].
  split; [by rewrite transform_snd|].
  rewrite fit_transform_snd. by apply fit_keeps_fitted.
Qed.

Lemma once_fitted_stays_fitted_witness :
  is_Some (scores (self (snd (fit first_cell_test first_cell_test
     (PyList [[1; 2]%Q]) (PySeries y_abc) fitted_5351)))) ∧
  is_Some (scores (self (snd (transform (PyList [[1; 2]%Q]) fitted_5351)))) ∧
  is_Some (scores (self (snd (fit_transform first_cell_test first_cell_test
     (PyList [[1; 2]%Q]) (PySeries y_abc) fitted_5351)))).
Proof.
  apply (once_fitted_stays_fitted first_cell_test first_cell_test
           (PyList [[1; 2]%Q]) (PySeries y_abc) fitted_5351).
  eexists. reflexivity.
Defined.

End frame.

(** ** Which features are kept *)

Section selection_facts.

Import SelectKBest.

Local Open Scope nat_scope.

Lemma slice_from_neg_min {A} (n : Z) (l : list A) :
  (0 < n)%Z →
  length (np.slice_from (- n) l) = Z.to_nat (Z.min n (Z.of_nat (length l))).
Proof.
  intros Hn. rewrite slice_from_neg by done. rewrite length_drop. lia.
Qed.

Lemma slice_from_nonneg {A} (n : Z) (l : list A) :
  (0 ≤ n)%Z → np.slice_from n l = drop (Z.to_nat n) l.
Proof.
  intros Hn. unfold np.slice_from.
  destruct (Z.ltb_spec n 0); [lia|].
  destruct (decide (n ≤ Z.of_nat (length l))%Z).
  - f_equal. lia.
  - rewrite !drop_ge by lia. done.
Qed.

(** The tail of a sorted list is closed under what comes later. *)
Lemma kbest_mask_upward kk a i j :
  selected (kbest_mask kk a) i → j < length a → before a i j →
  selected (kbest_mask kk a) j.
Proof.
  rewrite !kbest_mask_selected. unfold np.slice_from.
  set (n0 := Z.to_nat _). intros Hi Hj Hij.
  assert (j ∈ take n0 (np.argsort a) ++ drop n0 (np.argsort a)) as Hin.
  { rewrite take_drop. by apply argsort_elem_of. }
  apply elem_of_app in Hin as [Hin|Hin]; [|done].
  destruct (before_asym a i j Hij).
  apply (StronglySorted_app_1_elem_of (before a)
           (take n0 (np.argsort a)) (drop n0 (np.argsort a))); [|done|done].
  rewrite take_drop. apply argsort_stable_ascending.
Qed.

(** Scores with the same comparisons are sorted alike. *)
Lemma insert_by_ext a b n i l :
  (∀ i j, i < n → j < n →
     Qle_bool (np.item a i) (np.item a j) = Qle_bool (np.item b i) (np.item b j)) →
  i < n → Forall (λ j, j < n) l →
  np.insert_by a i l = np.insert_by b i l.
Proof.
  intros Hab Hi. induction 1 as [|j l Hj Hl IH]; simpl; [done|].
  rewrite (Hab i j Hi Hj), IH. done.
Qed.

Lemma argsort_from_ext a b n s m :
  (∀ i j, i < n → j < n →
     Qle_bool (np.item a i) (np.item a j) = Qle_bool (np.item b i) (np.item b j)) →
  s + m ≤ n →
  foldr (np.insert_by a) [] (seq s m) = foldr (np.insert_by b) [] (seq s m).
Proof.
  intros Hab. revert s. induction m as [|m IH]; intros s Hs; simpl; [done|].
  rewrite IH by lia. apply (insert_by_ext a b n); [done|lia|].
  rewrite argsort_from_perm. apply Forall_forall. intros j Hj.
  apply elem_of_seq in Hj. lia.
Qed.

Lemma Qle_bool_ext (x y x' y' : Q) :
  (x <= y ↔ x' <= y')%Q → Qle_bool x y = Qle_bool x' y'.
Proof.
  intros H. destruct (Qle_bool x y) eqn:E, (Qle_bool x' y') eqn:E'; try done.
  - apply Qle_bool_iff, H, Qle_bool_iff in E. congruence.
  - apply Qle_bool_iff, H, Qle_bool_iff in E'. congruence.
Qed.

End selection_facts.

Section selection.

Import SelectKBest.

Local Open Scope nat_scope.

(** X6.  On a fitted selector with any [k > 0], [transform] of a table
    with as many columns as fitted scores, and at least one, raises
    nothing and returns [min(k, n_features)] columns, columns of [X] in
    their original order, with the rows of [X]. *)
Theorem transform_keeps_min_k_n_columns
    (w : world) (a : np.ndarray) (X : pd.DataFrame) :
  scores (self w) = Some a →
  (0 < k (self w))%Z →
  length a = pd.n_features X →
  1 ≤ pd.n_features X →
  ∃ X_new,
    transform (PyDataFrame X) w = (Ok X_new, w) ∧
    pd.n_features X_new
    = Z.to_nat (Z.min (k (self w)) (Z.of_nat (pd.n_features X))) ∧
    pd.columns X_new `sublist_of` pd.columns X ∧
    pd.n_samples X_new = pd.n_samples X.
Proof.
  intros Hs Hk Hlen Hn.
  assert (k (self w) ≠ 0%Z) as Hk0 by lia.
  pose proof (get_mask_fitted w a Hs Hk0) as Hmask.
  set (mask := kbest_mask (k (self w)) a) in *.
  assert (count_true mask
          = Z.to_nat (Z.min (k (self w)) (Z.of_nat (pd.n_features X))))
    as Hcount.
  { unfold mask. rewrite kbest_mask_count, slice_from_neg_min by done.
    by rewrite argsort_length, Hlen. }
  assert (length mask = pd.n_features X) as Hm.
  { unfold mask. by rewrite kbest_mask_length. }
  rewrite (transform_with_mask _ _ _ Hmask).
  assert (np.any mask = true) as -> by (apply any_count; lia).
  simpl. destruct (decide (length mask ≠ pd.n_features X)); [done|].
  eexists. split; [done|]. unfold pd.n_features in *. simpl.
  split; [by rewrite select_length|].
  split; [apply select_sublist|done].
Qed.

Lemma transform_keeps_min_k_n_columns_witness :
  ∃ X_new,
    transform (PyDataFrame X_pqrs)
      (fresh (mk 3 SFNone (Some [5; 3; 5; 1]%Q) None))
    = (Ok X_new, fresh (mk 3 SFNone (Some [5; 3; 5; 1]%Q) None)) ∧
    pd.n_features X_new = 3 ∧
    pd.columns X_new `sublist_of` pd.columns X_pqrs ∧
    pd.n_samples X_new = 2.
Proof.
  apply (transform_keeps_min_k_n_columns
           (fresh (mk 3 SFNone (Some [5; 3; 5; 1]%Q) None))
           [5; 3; 5; 1]%Q X_pqrs).
  - reflexivity.
  - reflexivity.
  - reflexivity.
  - vm_compute. repeat constructor.
Defined.

(** X7.  On a fitted selector with a negative [k], the mask leaves out
    the first [|k|] positions of the stable ascending sort of the
    scores, the [|k|] lowest, and keeps the others; when [|k|] is at
    least the number of scores nothing is kept and [transform] raises the
    empty-selection error on any argument. *)
Theorem negative_k_drops_the_lowest (w : world) (a : np.ndarray) :
  scores (self w) = Some a →
  (k (self w) < 0)%Z →
  ∃ mask,
    __get_mask w = (Ok mask, w) ∧
    count_true mask = length a - Z.to_nat (- k (self w)) ∧
    (∀ order, stable_ascending a order →
       ∀ i, selected mask i ↔ i ∈ drop (Z.to_nat (- k (self w))) order) ∧
    (length a ≤ Z.to_nat (- k (self w)) →
     ∀ X, transform X w = (Raise (ValueError msg_no_features), w)).
Proof.
  intros Hs Hk.
  assert (k (self w) ≠ 0%Z) as Hk0 by lia.
  pose proof (get_mask_fitted w a Hs Hk0) as Hmask.
  exists (kbest_mask (k (self w)) a). split; [done|].
  assert (count_true (kbest_mask (k (self w)) a)
          = length a - Z.to_nat (- k (self w))) as Hcount.
  { rewrite kbest_mask_count, slice_from_nonneg by lia.
    by rewrite length_drop, argsort_length. }
  split; [done|]. split.
  - intros order Ho i. rewrite (stable_ascending_unique a order Ho).
    rewrite kbest_mask_selected. by rewrite slice_from_nonneg by lia.
  - intros Hall X. unfold transform, mbind, M_bind. rewrite Hmask.
    destruct (np.any (kbest_mask (k (self w)) a)) eqn:E; [|done].
    apply any_count in E. lia.
Qed.

Lemma negative_k_drops_the_lowest_witness :
  ∃ mask,
    __get_mask (fresh (mk (-1) SFNone (Some [5; 3; 5; 1]%Q) None))
    = (Ok mask, fresh (mk (-1) SFNone (Some [5; 3; 5; 1]%Q) None)) ∧
    count_true mask = 3 ∧
    (∀ order, stable_ascending [5; 3; 5; 1]%Q order →
       ∀ i, selected mask i ↔ i ∈ drop 1 order) ∧
    (4 ≤ 1 →
     ∀ X, transform X (fresh (mk (-1) SFNone (Some [5; 3; 5; 1]%Q) None))
          = (Raise (ValueError msg_no_features),
             fresh (mk (-1) SFNone (Some [5; 3; 5; 1]%Q) None))).
Proof.
  apply (negative_k_drops_the_lowest
           (fresh (mk (-1) SFNone (Some [5; 3; 5; 1]%Q) None))
           [5; 3; 5; 1]%Q).
  - reflexivity.
  - reflexivity.
Defined.

(** X8.  Whatever [k ≠ 0], the mask of a fitted selector keeps the
    highest scores: no position left out has a strictly higher score
    than a position kept. *)
Theorem no_feature_left_out_scores_higher (w : world) (a : np.ndarray) :
  scores (self w) = Some a →
  k (self w) ≠ 0%Z →
  ∃ mask,
    __get_mask w = (Ok mask, w) ∧
    ∀ i j, selected mask i → j < length a → ¬ selected mask j →
           (np.item a j <= np.item a i)%Q.
Proof.
  intros Hs Hk. exists (kbest_mask (k (self w)) a).
  split; [by apply get_mask_fitted|].
  intros i j Hi Hj Hnj.
  destruct (Qlt_le_dec (np.item a i) (np.item a j)) as [Hlt|Hle]; [|done].
  destruct Hnj. apply (kbest_mask_upward _ _ i j); [done|done|by left].
Qed.

Lemma no_feature_left_out_scores_higher_witness :
  ∃ mask,
    __get_mask fitted_abcd = (Ok mask, fitted_abcd) ∧
    ∀ i j, selected mask i → j < 4 → ¬ selected mask j →
           (np.item [1; 4; 7; 0]%Q j <= np.item [1; 4; 7; 0]%Q i)%Q.
Proof.
  apply (no_feature_left_out_scores_higher fitted_abcd [1; 4; 7; 0]%Q).
  - reflexivity.
  - discriminate.
Defined.

End selection.

(** ** The methods together *)

Section composition_facts.

Import SelectKBest.

Local Open Scope nat_scope.

(** The mask of a positive [k] on at least one score. *)
Lemma kbest_mask_positive kk a :
  (0 < kk)%Z → 1 ≤ length a →
  np.any (kbest_mask kk a) = true ∧
  count_true (kbest_mask kk a)
  = Z.to_nat (Z.min kk (Z.of_nat (length a))).
Proof.
  intros Hk Hn.
  assert (count_true (kbest_mask kk a)
          = Z.to_nat (Z.min kk (Z.of_nat (length a)))) as Hc.
  { rewrite kbest_mask_count, slice_from_neg_min by done.
    by rewrite argsort_length. }
  split; [|done]. apply any_count. lia.
Qed.

Lemma kbest_mask_ext kk a b :
  length a = length b →
  (∀ i j, i < length a → j < length a →
     (np.item a i <= np.item a j ↔ np.item b i <= np.item b j)%Q) →
  kbest_mask kk a = kbest_mask kk b.
Proof.
  intros Hlen Hab. unfold kbest_mask, np.argsort. rewrite <- Hlen.
  rewrite (argsort_from_ext a b (length a) 0 (length a)); [done| |lia].
  intros i j Hi Hj. by apply Qle_bool_ext, Hab.
Qed.

End composition_facts.

Section composition.

Import SelectKBest.

Local Open Scope nat_scope.

(** X9.  With [k = 0], [fit_transform] never returns a table: it raises
    what [fit] raises, and when [fit] succeeds it raises the
    empty-selection error. *)
Theorem fit_transform_k_zero_never_returns
    (sk1 sk2 : pd.DataFrame → pd.Series → outcome (np.ndarray * np.ndarray))
    (X y : pyobj) (w : world) :
  k (self w) = 0%Z →
  fst (fit_transform sk1 sk2 X y w)
  = match fst (fit sk1 sk2 X y w) with
    | Raise e => Raise e
    | Ok _ => Raise (ValueError msg_no_features)
    end.
Proof.
  intros Hk. unfold fit_transform, mbind, M_bind.
  destruct (fit sk1 sk2 X y w) as [[[]|e] w1] eqn:Hfit; simpl; [|done].
  destruct (fit_ok_inv _ _ _ _ _ _ Hfit)
    as (df & ys & f & ret & a & _ & _ & _ & _ & _ & Hw1).
  assert (scores (self w1) = Some a) as Hs by (by subst w1).
  assert (k (self w1) = 0%Z) as Hk1 by (by subst w1).
  unfold transform, mbind, M_bind.
  rewrite (get_mask_zero w1 a Hs Hk1). by rewrite zeros_any.
Qed.

Lemma fit_transform_k_zero_never_returns_witness :
  fst (fit_transform first_cell_test first_cell_test
         (PyDataFrame X_abcd) (PySeries y_abc)
         (fresh (__init__ (SFCallable first_cell_scores) 0)))
  = match fst (fit first_cell_test first_cell_test
                 (PyDataFrame X_abcd) (PySeries y_abc)
                 (fresh (__init__ (SFCallable first_cell_scores) 0))) with
    | Raise e => Raise e
    | Ok _ => Raise (ValueError msg_no_features)
    end.
Proof.
  apply (fit_transform_k_zero_never_returns first_cell_test first_cell_test
           (PyDataFrame X_abcd) (PySeries y_abc)
           (fresh (__init__ (SFCallable first_cell_scores) 0))).
  reflexivity.
Defined.

(** X10.  When the resolved scoring function returns one score per
    column of a table with at least one column, and [k > 0],
    [fit_transform] succeeds: it stores the scores and returns
    [min(k, n_features)] columns of [X], in their original order, with
    the rows of [X]. *)
Theorem fit_transform_returns_best_columns
    (sk1 sk2 : pd.DataFrame → pd.Series → outcome (np.ndarray * np.ndarray))
    (w : world) (X : pd.DataFrame) (y : pd.Series)
    (f : callable) (ret : score_func_ret) (a : np.ndarray) :
  resolved (score_func (self w)) y = SFCallable f →
  apply sk1 sk2 f X y = Ok ret →
  ret_scores ret = Some a →
  length a = pd.n_features X →
  1 ≤ pd.n_features X →
  (0 < k (self w))%Z →
  ∃ X_new w1,
    fit_transform sk1 sk2 (PyDataFrame X) (PySeries y) w = (Ok X_new, w1) ∧
    scores (self w1) = Some a ∧
    pd.n_features X_new
    = Z.to_nat (Z.min (k (self w)) (Z.of_nat (pd.n_features X))) ∧
    pd.columns X_new `sublist_of` pd.columns X ∧
    pd.n_samples X_new = pd.n_samples X.
Proof.
  intros Hres Happ Hret Hlen Hn Hk.
  unfold fit_transform, mbind, M_bind.
  rewrite (fit_callable _ _ _ _ _ _ Hres). simpl. rewrite Happ, Hret.
  set (w1 := mkWorld _ _).
  assert (scores (self w1) = Some a) as Hs by done.
  assert (k (self w1) ≠ 0%Z) as Hk0 by (simpl; lia).
  rewrite (transform_with_mask _ _ _ (get_mask_fitted w1 a Hs Hk0)).
  destruct (kbest_mask_positive (k (self w)) a Hk) as [Hany Hcount]; [lia|].
  simpl. rewrite Hany. simpl. rewrite kbest_mask_length.
  destruct (decide (length a ≠ pd.n_features X)); [done|].
  eexists _, w1. split; [done|]. split; [done|].
  unfold pd.n_features in *. simpl.
  split; [by rewrite select_length, Hcount, Hlen by
            (by rewrite kbest_mask_length)|].
  split; [apply select_sublist|done].
Qed.

Lemma fit_transform_returns_best_columns_witness :
  ∃ X_new w1,
    fit_transform first_cell_test first_cell_test
      (PyDataFrame X_abcd) (PySeries y_abc)
      (fresh (__init__ (SFCallable first_cell_scores) 2))
    = (Ok X_new, w1) ∧
    scores (self w1) = Some [1; 4; 7; 0]%Q ∧
    pd.n_features X_new = 2 ∧
    pd.columns X_new `sublist_of` pd.columns X_abcd ∧
    pd.n_samples X_new = 3.
Proof.
  apply (fit_transform_returns_best_columns first_cell_test first_cell_test
           (fresh (__init__ (SFCallable first_cell_scores) 2))
           X_abcd y_abc first_cell_scores
           (RetArray [1; 4; 7; 0]%Q) [1; 4; 7; 0]%Q).
  - reflexivity.
  - reflexivity.
  - reflexivity.
  - reflexivity.
  - vm_compute. repeat constructor.
  - reflexivity.
Defined.

(** X11.  A target of at most 15 values has at most 15 distinct values:
    on a selector whose [score_func] is [None], [fit] on such a target
    always resolves to [f_classif] and calls it, whatever the values
    are. *)
Theorem short_target_resolves_to_f_classif
    (sk1 sk2 : pd.DataFrame → pd.Series → outcome (np.ndarray * np.ndarray))
    (w : world) (X : pd.DataFrame) (y : pd.Series) :
  score_func (self w) = SFNone →
  length y ≤ 15 →
  score_func (self (snd (fit sk1 sk2 (PyDataFrame X) (PySeries y) w)))
  = SFCallable f_classif ∧
  calls (snd (fit sk1 sk2 (PyDataFrame X) (PySeries y) w))
  = calls w ++ [(f_classif, X, y)].
Proof.
  intros Hnone Hy.
  assert (resolved (score_func (self w)) y = SFCallable f_classif) as Hres.
  { rewrite Hnone. unfold resolved, auto_scorer.
    pose proof (nunique_le_length y).
    destruct (decide (pd.nunique y ≤ 15)); [done|lia]. }
  split; [by rewrite fit_score_func|by apply fit_calls].
Qed.

Lemma short_target_resolves_to_f_classif_witness :
  score_func (self (snd (fit first_cell_test first_cell_test
     (PyDataFrame X_abcd) (PySeries [1#3; 1#2; 7]%Q) (fresh default))))
  = SFCallable f_classif ∧
  calls (snd (fit first_cell_test first_cell_test
     (PyDataFrame X_abcd) (PySeries [1#3; 1#2; 7]%Q) (fresh default)))
  = calls (fresh default) ++ [(f_classif, X_abcd, [1#3; 1#2; 7]%Q)].
Proof.
  apply (short_target_resolves_to_f_classif first_cell_test first_cell_test
           (fresh default) X_abcd [1#3; 1#2; 7]%Q).
  - reflexivity.
  - vm_compute. repeat constructor.
Defined.

End composition.

Section further.

Import SelectKBest.

Local Open Scope nat_scope.

(** X12.  The mask depends on the ranking of the scores alone: two
    fitted selectors with the same [k] whose scores compare alike,
    position by position, compute the same mask.  Rescaling the scores
    by a positive factor, for instance, changes no selection. *)
Theorem mask_depends_on_ranking_only (w w' : world) (a b : np.ndarray) :
  scores (self w) = Some a →
  scores (self w') = Some b →
  k (self w) = k (self w') →
  length a = length b →
  (∀ i j, i < length a → j < length a →
     (np.item a i <= np.item a j ↔ np.item b i <= np.item b j)%Q) →
  fst (__get_mask w) = fst (__get_mask w').
Proof.
  intros Hs Hs' Hk Hlen Hab.
  destruct (decide (k (self w) = 0%Z)) as [Hk0|Hk0].
  - rewrite (get_mask_zero w a Hs Hk0).
    rewrite (get_mask_zero w' b Hs') by congruence.
    simpl. by rewrite Hlen.
  - rewrite (get_mask_fitted w a Hs Hk0).
    rewrite (get_mask_fitted w' b Hs') by congruence.
    simpl. rewrite <- Hk. f_equal. by apply kbest_mask_ext.
Qed.

Lemma mask_depends_on_ranking_only_witness :
  fst (__get_mask (fresh (mk 2 SFNone (Some [5; 3; 5; 1]%Q) None)))
  = fst (__get_mask (fresh (mk 2 SFNone (Some [50; 30; 50; 10]%Q) None))).
Proof.
  apply (mask_depends_on_ranking_only
           (fresh (mk 2 SFNone (Some [5; 3; 5; 1]%Q) None))
           (fresh (mk 2 SFNone (Some [50; 30; 50; 10]%Q) None))
           [5; 3; 5; 1]%Q [50; 30; 50; 10]%Q).
  - reflexivity.
  - reflexivity.
  - reflexivity.
  - reflexivity.
  - intros i j Hi Hj. simpl in Hi, Hj.
    do 4 (destruct i as [|i];
          [do 4 (destruct j as [|j]; [vm_compute; tauto|]); lia|]).
    lia.
Defined.

(** X13.  [transform] refuses its own output: on a fitted selector with
    [0 < k < n_features], the table [transform] returns has [k] columns,
    and passing it to [transform] again raises the shape error. *)
Theorem transform_refuses_its_own_output
    (w : world) (a : np.ndarray) (X : pd.DataFrame) :
  scores (self w) = Some a →
  length a = pd.n_features X →
  (0 < k (self w) < Z.of_nat (pd.n_features X))%Z →
  ∃ X_new,
    transform (PyDataFrame X) w = (Ok X_new, w) ∧
    transform (PyDataFrame X_new) w = (Raise (ValueError msg_shape), w).
Proof.
  intros Hs Hlen Hk.
  assert (k (self w) ≠ 0%Z) as Hk0 by lia.
  pose proof (get_mask_fitted w a Hs Hk0) as Hmask.
  destruct (kbest_mask_positive (k (self w)) a) as [Hany Hcount]; [lia..|].
  rewrite (transform_with_mask _ _ _ Hmask). rewrite Hany. simpl.
  rewrite kbest_mask_length.
  destruct (decide (length a ≠ pd.n_features X)); [done|].
  eexists. split; [done|].
  rewrite (transform_with_mask _ _ _ Hmask). rewrite Hany. simpl.
  rewrite kbest_mask_length.
  destruct (decide _) as [|Heq]; [done|]. destruct Heq.
  unfold pd.n_features in *. simpl.
  rewrite select_length by (by rewrite kbest_mask_length).
  rewrite Hcount. lia.
Qed.

Lemma transform_refuses_its_own_output_witness :
  ∃ X_new,
    transform (PyDataFrame X_pqrs) fitted_5351 = (Ok X_new, fitted_5351) ∧
    transform (PyDataFrame X_new) fitted_5351
    = (Raise (ValueError msg_shape), fitted_5351).
Proof.
  apply (transform_refuses_its_own_output fitted_5351 [5; 3; 5; 1]%Q X_pqrs).
  - reflexivity.
  - reflexivity.
  - vm_compute. split; reflexivity.
Defined.

(** X14.  A scoring function that returns a tuple or list of other than
    two arrays makes [fit] raise a [ValueError], after the call; [scores]
    and [pvalues] keep what they held. *)
Theorem fit_refuses_a_result_not_a_pair
    (sk1 sk2 : pd.DataFrame → pd.Series → outcome (np.ndarray * np.ndarray))
    (w : world) (X : pd.DataFrame) (y : pd.Series)
    (f : callable) (items : list np.ndarray) :
  resolved (score_func (self w)) y = SFCallable f →
  apply sk1 sk2 f X y = Ok (RetSeq items) →
  length items ≠ 2 →
  ∃ msg w1,
    fit sk1 sk2 (PyDataFrame X) (PySeries y) w = (Raise (ValueError msg), w1) ∧
    calls w1 = calls w ++ [(f, X, y)] ∧
    scores (self w1) = scores (self w) ∧
    pvalues (self w1) = pvalues (self w).
Proof.
  intros Hres Happ Hitems.
  rewrite (fit_callable _ _ _ _ _ _ Hres). simpl. rewrite Happ.
  assert (ret_scores (RetSeq items) = None) as ->.
  { by destruct items as [|s [|p [|q items]]]. }
  by eexists _, _.
Qed.

Lemma fit_refuses_a_result_not_a_pair_witness :
  ∃ msg w1,
    fit first_cell_test first_cell_test (PyDataFrame X_abcd) (PySeries y_abc)
      (fresh (mk 2 (SFCallable three_arrays) (Some [5; 3; 5; 1]%Q) None))
    = (Raise (ValueError msg), w1) ∧
    calls w1 = [(three_arrays, X_abcd, y_abc)] ∧
    scores (self w1) = Some [5; 3; 5; 1]%Q ∧
    pvalues (self w1) = None.
Proof.
  apply (fit_refuses_a_result_not_a_pair first_cell_test first_cell_test
           (fresh (mk 2 (SFCallable three_arrays) (Some [5; 3; 5; 1]%Q) None))
           X_abcd y_abc three_arrays [[1]%Q; [2]%Q; [3]%Q]).
  - reflexivity.
  - reflexivity.
  - discriminate.
Defined.

(** X15.  A call of [fit] calls a scoring function at most once: either
    no call is made, or one call is made, of the function [score_func]
    holds afterwards, on exactly the table and the target [fit] was
    given. *)
Theorem fit_calls_the_scorer_at_most_once
    (sk1 sk2 : pd.DataFrame → pd.Series → outcome (np.ndarray * np.ndarray))
    (X y : pyobj) (w : world) :
  calls (snd (fit sk1 sk2 X y w)) = calls w ∨
  ∃ df ys f,
    X = PyDataFrame df ∧ y = PySeries ys ∧
    score_func (self (snd (fit sk1 sk2 X y w))) = SFCallable f ∧
    calls (snd (fit sk1 sk2 X y w)) = calls w ++ [(f, df, ys)].
Proof.
  destruct (fit_cases sk1 sk2 X y w)
    as [[msg Hm]|(df & ys & f & -> & -> & Hres)].
  - left. by rewrite Hm.
  - right. exists df, ys, f. split; [done|]. split; [done|].
    split; [by rewrite fit_score_func|by apply fit_calls].
Qed.

End further.
